(** * The Logic App Workflow resource of the azurerm provider

    A shallow embedding of [azurerm/resource_arm_logic_app_workflow.go]:
    the four lifecycle handlers (Create, Read, Update, Delete) and the two
    parameter mapping helpers, written as programs over the calls they make
    to the remote workflows client and to the provider's named lock. *)

From stdpp Require Import gmap strings list fin_maps.

Set Warnings "-register-all".
Open Scope string_scope.
Open Scope list_scope.

(** ** Go values *)

(** The empty Go string. *)
Definition empty : string := EmptyString.

(** A value of Go's [interface{}], as far as this resource meets them:
    the nil interface, JSON scalars, slices, [map[string]interface{}] and
    a pointer to such a map (the form Create builds with [&map...]). *)
Inductive iface : Type :=
| INil
| IBool (b : bool)
| INumber (n : Z)
| IString (s : string)
| ISlice (l : list iface)
| IMap (m : gmap string iface)
| IMapPtr (m : gmap string iface).

(** [v.(string)], the one-result type assertion: [None] is the run-time
    panic "interface conversion". *)
Definition assert_string (v : iface) : option string :=
  match v with
  | IString s => Some s
  | _ => None
  end.

(** [m[k]] on a [map[string]interface{}]: the nil interface when absent. *)
Definition index (m : gmap string iface) (k : string) : iface :=
  default INil (m !! k).

(** [m[k]] on a [map[string]string]: the empty string when absent. *)
Definition index_string (m : gmap string string) (k : string) : string :=
  default empty (m !! k).

(** ** Errors *)

Inductive fmtarg (E : Type) : Type :=
| ArgQ (s : string)      (* a string printed with %q *)
| ArgV (e : E).          (* an error printed with %+v *)
Arguments ArgQ {E} s.
Arguments ArgV {E} e.

(** Go [error] values: those made here with [fmt.Errorf], kept as the
    format and its arguments, and those handed over by the client or the
    resource-id parser, which are opaque. *)
Inductive error : Type :=
| External (msg : string)
| Errorf (format : string) (args : list (fmtarg error)).

(** The spec's [RemoteError]: a failure wrapped with the workflow name and
    resource group it concerns. *)
Definition is_RemoteError (e : error) : bool :=
  match e with
  | Errorf _ (ArgQ _ :: ArgQ _ :: _) => true
  | _ => false
  end.

Inductive result (A : Type) : Type :=
| Ok (a : A)
| Err (e : error).
Arguments Ok {A} a.
Arguments Err {A} e.

(** ** SDK types *)

Module autorest.
(** [autorest.Response]: the embedded [*http.Response], of which only the
    status code is looked at; [None] is the nil pointer. *)
Record Response : Type := { StatusCode : option Z }.
Definition zero : Response := {| StatusCode := None |}.
End autorest.

Module logic.
Inductive ParameterType : Type :=
| ParameterTypeArray
| ParameterTypeBool
| ParameterTypeFloat
| ParameterTypeInt
| ParameterTypeNotSpecified
| ParameterTypeObject
| ParameterTypeSecureObject
| ParameterTypeSecureString
| ParameterTypeString.

Record WorkflowParameter : Type := {
  Type_ : ParameterType;
  Value : iface
}.

(** [Definition] is reserved, hence [Definition_]. *)
Record WorkflowProperties : Type := {
  AccessEndpoint : option string;
  Definition_ : iface;
  Parameters : gmap string (option WorkflowParameter)
}.

(** The embedded [*WorkflowProperties] is the field [Properties]. *)
Record Workflow : Type := {
  Response : autorest.Response;
  Properties : option WorkflowProperties;
  ID : option string;
  Name : option string;
  Location : option string;
  Tags : gmap string (option string)
}.
End logic.

(** [ResourceID] of the provider's resource-id parser. *)
Record ResourceID : Type := {
  SubscriptionID : string;
  ResourceGroup : string;
  Provider : string;
  Path : gmap string string
}.

(** ** Resource data

    [*schema.ResourceData] for the schema of this resource: the id and one
    field per attribute, of the Go type [d.Get] is asserted to. The two
    maps have the Go type [map[string]interface{}]; what the host keeps in
    ["parameters"], a map without an element type, are strings (a configured
    [true] is read back as the string "1"), which is [IString <$> m] here. *)
Record ResourceData : Type := {
  Id : string;
  name : string;
  location : string;
  resource_group_name : string;
  parameters : gmap string iface;
  workflow_schema : string;
  workflow_version : string;
  tags : gmap string iface;
  access_endpoint : string
}.

Definition SetId (v : string) (d : ResourceData) : ResourceData :=
  {| Id := v; name := name d; location := location d;
     resource_group_name := resource_group_name d;
     parameters := parameters d; workflow_schema := workflow_schema d;
     workflow_version := workflow_version d; tags := tags d;
     access_endpoint := access_endpoint d |}.

(** [d.Set] of a [*string]: a nil pointer stores the zero value. *)
Definition Set_name (v : option string) (d : ResourceData) : ResourceData :=
  {| Id := Id d; name := default empty v; location := location d;
     resource_group_name := resource_group_name d;
     parameters := parameters d; workflow_schema := workflow_schema d;
     workflow_version := workflow_version d; tags := tags d;
     access_endpoint := access_endpoint d |}.

Definition Set_resource_group_name (v : string) (d : ResourceData) : ResourceData :=
  {| Id := Id d; name := name d; location := location d;
     resource_group_name := v;
     parameters := parameters d; workflow_schema := workflow_schema d;
     workflow_version := workflow_version d; tags := tags d;
     access_endpoint := access_endpoint d |}.

Definition Set_location (v : string) (d : ResourceData) : ResourceData :=
  {| Id := Id d; name := name d; location := v;
     resource_group_name := resource_group_name d;
     parameters := parameters d; workflow_schema := workflow_schema d;
     workflow_version := workflow_version d; tags := tags d;
     access_endpoint := access_endpoint d |}.

(** [d.Set("parameters", m)] is the one [Set] whose error the source
    checks; on a map of strings it stores the map and returns nil. *)
Definition Set_parameters (v : gmap string iface) (d : ResourceData)
  : ResourceData * option error :=
  ({| Id := Id d; name := name d; location := location d;
      resource_group_name := resource_group_name d;
      parameters := v; workflow_schema := workflow_schema d;
      workflow_version := workflow_version d; tags := tags d;
      access_endpoint := access_endpoint d |}, None).

Definition Set_access_endpoint (v : option string) (d : ResourceData) : ResourceData :=
  {| Id := Id d; name := name d; location := location d;
     resource_group_name := resource_group_name d;
     parameters := parameters d; workflow_schema := workflow_schema d;
     workflow_version := workflow_version d; tags := tags d;
     access_endpoint := default empty v |}.

Definition Set_workflow_schema (v : string) (d : ResourceData) : ResourceData :=
  {| Id := Id d; name := name d; location := location d;
     resource_group_name := resource_group_name d;
     parameters := parameters d; workflow_schema := v;
     workflow_version := workflow_version d; tags := tags d;
     access_endpoint := access_endpoint d |}.

Definition Set_workflow_version (v : string) (d : ResourceData) : ResourceData :=
  {| Id := Id d; name := name d; location := location d;
     resource_group_name := resource_group_name d;
     parameters := parameters d; workflow_schema := workflow_schema d;
     workflow_version := v; tags := tags d;
     access_endpoint := access_endpoint d |}.

Definition Set_tags (v : gmap string iface) (d : ResourceData) : ResourceData :=
  {| Id := Id d; name := name d; location := location d;
     resource_group_name := resource_group_name d;
     parameters := parameters d; workflow_schema := workflow_schema d;
     workflow_version := workflow_version d; tags := v;
     access_endpoint := access_endpoint d |}.

(** ** Programs

    A handler is a finite tree of the calls it makes: each node is a call
    to the remote client or to the named lock, with one subtree per answer;
    a leaf is a normal return or a Go panic. *)

Inductive event : Type -> Type :=
| EvCreateOrUpdate (resourceGroup name : string) (properties : logic.Workflow)
    : event (logic.Workflow * option error)
| EvGet (resourceGroup name : string) : event (logic.Workflow * option error)
| EvDelete (resourceGroup name : string) : event (autorest.Response * option error)
| EvLock (name resourceType : string) : event unit
| EvUnlock (name resourceType : string) : event unit.

Inductive prog (A : Type) : Type :=
| Ret (a : A)
| Panic
| Vis {X : Type} (e : event X) (k : X -> prog A).
Arguments Ret {A} a.
Arguments Panic {A}.
Arguments Vis {A X} e k.

Fixpoint bind {A B : Type} (p : prog A) (f : A -> prog B) : prog B :=
  match p with
  | Ret a => f a
  | Panic => Panic
  | Vis e k => Vis e (fun x => bind (k x) f)
  end.

#[export] Instance prog_ret : MRet prog := fun A a => Ret a.
#[export] Instance prog_bind : MBind prog := fun A B f p => bind p f.

Definition call {X : Type} (e : event X) : prog X := Vis e Ret.

(** A pure step that may panic. *)
Definition assert {A : Type} (o : option A) : prog A :=
  match o with
  | Some a => Ret a
  | None => Panic
  end.

(** [defer cleanup] followed by [p]: the cleanup runs when [p] returns and
    also when it panics. *)
Fixpoint defer {A : Type} (cleanup : prog unit) (p : prog A) : prog A :=
  match p with
  | Ret a => cleanup ≫= fun _ => Ret a
  | Panic => cleanup ≫= fun _ => Panic
  | Vis e k => Vis e (fun x => defer cleanup (k x))
  end.

(** ** The resource *)

Definition logicAppResourceName : string := "azurerm_logic_app".

(** Defaults of the [workflow_schema] and [workflow_version] attributes. *)
Definition default_workflow_schema : string :=
  "https://schema.management.azure.com/providers/Microsoft.Logic/schemas/2016-06-01/workflowdefinition.json#".
Definition default_workflow_version : string := "1.0.0.0".

Section Resource.
Import logic.

(** Helpers of the provider that live outside this source file. *)
Variable parseAzureResourceID : string -> result ResourceID.
Variable azureRMNormalizeLocation : string -> string.
Variable expandTags : gmap string iface -> gmap string (option string).
Variable flattenTags : gmap string (option string) -> gmap string iface.
Variable ResponseWasNotFound : autorest.Response -> bool.

(** Modelled from the spec: [flattenAndSetTags] (tags.go) is not part of
    this source file; Read "always refreshes tags", so it stores the
    flattened remote tags under ["tags"] and touches nothing else. *)
Definition flattenAndSetTags (d : ResourceData) (tagsMap : gmap string (option string))
  : ResourceData :=
  Set_tags (flattenTags tagsMap) d.

Definition expandLogicAppWorkflowParameters (d : ResourceData)
  : option (gmap string (option WorkflowParameter)) :=
  let input := parameters d in
  map_fold (fun k v (output : option (gmap string (option WorkflowParameter))) =>
              output ← output;
              s ← assert_string v;
              Some (<[k := Some {| Type_ := ParameterTypeString; Value := IString s |}]> output))
           (Some ∅) input.

Definition flattenLogicAppWorkflowParameters (input : gmap string (option WorkflowParameter))
  : option (gmap string iface) :=
  map_fold (fun k v (output : option (gmap string iface)) =>
              output ← output;
              match v with
              | Some v => s ← assert_string (Value v); Some (<[k := IString s]> output)
              | None => Some output
              end)
           (Some ∅) input.

(** The part of Read that follows a successful fetch (source lines
    187-214): it copies the remote object [resp] into the resource data
    and makes no further call. *)
Definition populate (resourceGroup : string) (resp : Workflow) (d : ResourceData)
  : prog (ResourceData * option error) :=
  let d := Set_name (Name resp) d in
  let d := Set_resource_group_name resourceGroup d in
  let d := match Location resp with
           | Some location => Set_location (azureRMNormalizeLocation location) d
           | None => d
           end in
  '(d, err) ← match Properties resp with
              | Some props =>
                parameters ← assert (flattenLogicAppWorkflowParameters (Parameters props));
                let '(d, err) := Set_parameters parameters d in
                match err with
                | Some err =>
                  mret (d, Some (Errorf "Error flattening `parameters`: %+v" [ArgV err]))
                | None =>
                  let d := Set_access_endpoint (AccessEndpoint props) d in
                  match Definition_ props with
                  | IMap v =>
                    schema ← assert (assert_string (index v "$schema"));
                    version ← assert (assert_string (index v "contentVersion"));
                    let d := Set_workflow_schema schema d in
                    let d := Set_workflow_version version d in
                    mret (d, None)
                  | _ => mret (d, None)
                  end
                end
              | None => mret (d, None)
              end;
  match err with
  | Some err => mret (d, Some err)
  | None => mret (flattenAndSetTags d (Tags resp), None)
  end.

Definition resourceArmLogicAppWorkflowRead (d : ResourceData)
  : prog (ResourceData * option error) :=
  match parseAzureResourceID (Id d) with
  | Err err => mret (d, Some err)
  | Ok id =>
    let resourceGroup := ResourceGroup id in
    let name := index_string (Path id) "workflows" in
    '(resp, err) ← call (EvGet resourceGroup name);
    match err with
    | Some err =>
      if ResponseWasNotFound (Response resp) then
        mret (SetId empty d, None)
      else
        mret (d, Some (Errorf "[ERROR] Error making Read request on Logic App Workflow %q (Resource Group %q): %+v"
                              [ArgQ name; ArgQ resourceGroup; ArgV err]))
    | None => populate resourceGroup resp d
    end
  end.

Definition resourceArmLogicAppWorkflowCreate (d : ResourceData)
  : prog (ResourceData * option error) :=
  let name := name d in
  let resourceGroup := resource_group_name d in
  let location := azureRMNormalizeLocation (location d) in
  parameters ← assert (expandLogicAppWorkflowParameters d);
  let workflowSchema := workflow_schema d in
  let workflowVersion := workflow_version d in
  let tags := tags d in
  let properties :=
    {| Response := autorest.zero;
       Properties := Some
         {| AccessEndpoint := None;
            Definition_ := IMapPtr (<["$schema" := IString workflowSchema]>
                                   (<["contentVersion" := IString workflowVersion]>
                                   (<["actions" := IMap ∅]>
                                   (<["triggers" := IMap ∅]> ∅))));
            Parameters := parameters |};
       ID := None;
       Name := None;
       Location := Some location;
       Tags := expandTags tags |} in
  '(_, err) ← call (EvCreateOrUpdate resourceGroup name properties);
  match err with
  | Some err =>
    mret (d, Some (Errorf "[ERROR] Error creating Logic App Workflow %q (Resource Group %q): %+v"
                          [ArgQ name; ArgQ resourceGroup; ArgV err]))
  | None =>
    '(read, err) ← call (EvGet resourceGroup name);
    match err with
    | Some err =>
      mret (d, Some (Errorf "[ERROR] Error making Read request on Logic App Workflow %q (Resource Group %q): %+v"
                            [ArgQ name; ArgQ resourceGroup; ArgV err]))
    | None =>
      match ID read with
      | None =>
        mret (d, Some (Errorf "[ERROR] Cannot read Logic App Workflow %q (Resource Group %q) ID"
                              [ArgQ name; ArgQ resourceGroup]))
      | Some id =>
        let d := SetId id d in
        resourceArmLogicAppWorkflowRead d
      end
    end
  end.

(** What Update does while it holds the lock (source lines 132-164). *)
Definition updateLocked (resourceGroup name : string) (d : ResourceData)
  : prog (ResourceData * option error) :=
  '(read, err) ← call (EvGet resourceGroup name);
  match err with
  | Some err =>
    if ResponseWasNotFound (Response read) then
      mret (SetId empty d, None)
    else
      mret (d, Some (Errorf "[ERROR] Error making Read request on Logic App Workflow %q (Resource Group %q): %+v"
                            [ArgQ name; ArgQ resourceGroup; ArgV err]))
  | None =>
    match Properties read with
    | None =>
      mret (d, Some (Errorf "[ERROR] Error parsing Logic App Workflow - `WorkflowProperties` is nil" []))
    | Some readProperties =>
      let location := azureRMNormalizeLocation (location d) in
      parameters ← assert (expandLogicAppWorkflowParameters d);
      let tags := tags d in
      let properties :=
        {| Response := autorest.zero;
           Properties := Some
             {| AccessEndpoint := None;
                Definition_ := Definition_ readProperties;
                Parameters := parameters |};
           ID := None;
           Name := None;
           Location := Some location;
           Tags := expandTags tags |} in
      '(_, err) ← call (EvCreateOrUpdate resourceGroup name properties);
      match err with
      | Some err =>
        mret (d, Some (Errorf "Error updating Logic App Workspace %q (Resource Group %q): %+v"
                              [ArgQ name; ArgQ resourceGroup; ArgV err]))
      | None => resourceArmLogicAppWorkflowRead d
      end
    end
  end.

Definition resourceArmLogicAppWorkflowUpdate (d : ResourceData)
  : prog (ResourceData * option error) :=
  match parseAzureResourceID (Id d) with
  | Err err => mret (d, Some err)
  | Ok id =>
    let resourceGroup := ResourceGroup id in
    let name := index_string (Path id) "workflows" in
    call (EvLock name logicAppResourceName);;
    defer (call (EvUnlock name logicAppResourceName))
          (updateLocked resourceGroup name d)
  end.

(** What Delete does while it holds the lock (source lines 232-241). *)
Definition deleteLocked (resourceGroup name : string) (d : ResourceData)
  : prog (ResourceData * option error) :=
  '(resp, err) ← call (EvDelete resourceGroup name);
  match err with
  | Some err =>
    if ResponseWasNotFound resp then
      mret (d, None)
    else
      mret (d, Some (Errorf "Error issuing delete request for Logic App Workflow %q (Resource Group %q): %+v"
                            [ArgQ name; ArgQ resourceGroup; ArgV err]))
  | None => mret (d, None)
  end.

Definition resourceArmLogicAppWorkflowDelete (d : ResourceData)
  : prog (ResourceData * option error) :=
  match parseAzureResourceID (Id d) with
  | Err err => mret (d, Some err)
  | Ok id =>
    let resourceGroup := ResourceGroup id in
    let name := index_string (Path id) "workflows" in
    call (EvLock name logicAppResourceName);;
    defer (call (EvUnlock name logicAppResourceName))
          (deleteLocked resourceGroup name d)
  end.

End Resource.

(** ** Running a program against a client *)

(** What a call looked like from outside: the record a fake client keeps. *)
Inductive call_record : Type :=
| CallCreateOrUpdate (resourceGroup name : string) (properties : logic.Workflow)
| CallGet (resourceGroup name : string)
| CallDelete (resourceGroup name : string)
| CallLock (name resourceType : string)
| CallUnlock (name resourceType : string).

Definition record_of {X : Type} (e : event X) : call_record :=
  match e with
  | EvCreateOrUpdate rg n p => CallCreateOrUpdate rg n p
  | EvGet rg n => CallGet rg n
  | EvDelete rg n => CallDelete rg n
  | EvLock n t => CallLock n t
  | EvUnlock n t => CallUnlock n t
  end.

Definition is_remote (c : call_record) : bool :=
  match c with
  | CallCreateOrUpdate _ _ _ | CallGet _ _ | CallDelete _ _ => true
  | CallLock _ _ | CallUnlock _ _ => false
  end.

Definition is_CreateOrUpdate (c : call_record) : bool :=
  match c with
  | CallCreateOrUpdate _ _ _ => true
  | _ => false
  end.

(** The workflows client ([logicWorkflowsClient]) over a remote world [W]:
    each method answers with the pair the Go method returns and the world
    it leaves behind. *)
Class WorkflowsClient (W : Type) : Type := {
  client_CreateOrUpdate :
    string -> string -> logic.Workflow -> W -> (logic.Workflow * option error) * W;
  client_Get : string -> string -> W -> (logic.Workflow * option error) * W;
  client_Delete : string -> string -> W -> (autorest.Response * option error) * W
}.

(** Modelled from the spec: the lock registry behind [azureRMLockByName]
    and [azureRMUnlockByName] (locks.go) is not part of this source file.
    It is "a process-wide mutual-exclusion primitive keyed by a string":
    the registry is the set of the keys now locked, a key being the pair of
    the name and the resource type the two functions are given. Locking a
    key that is locked does not go through ([None]: the caller waits). *)
Definition azureRMLockByName (name resourceType : string)
    (registry : gset (string * string)) : option (gset (string * string)) :=
  if decide ((name, resourceType) ∈ registry) then None
  else Some (registry ∪ {[(name, resourceType)]}).

(** Modelled from the spec: [azureRMUnlockByName] (locks.go, not part of
    this source file) gives the key back. *)
Definition azureRMUnlockByName (name resourceType : string)
    (registry : gset (string * string)) : gset (string * string) :=
  registry ∖ {[(name, resourceType)]}.

(** The state a handler runs in: the remote world, the lock registry
    [held] and the calls made so far. *)
Record state (W : Type) : Type := {
  remote : W;
  held : gset (string * string);
  calls : list call_record
}.
Arguments remote {W} s.
Arguments held {W} s.
Arguments calls {W} s.

(** How a run ends: the handler returned, it panicked, or it waits for a
    lock that is held. *)
Inductive outcome (A : Type) : Type :=
| Returned (a : A)
| Panicked
| Blocked.
Arguments Returned {A} a.
Arguments Panicked {A}.
Arguments Blocked {A}.

Section Run.
Context {W : Type} {client : WorkflowsClient W}.

(** One call: its answer and the state after it, or [None] when the call
    is a lock on a key that is held and cannot proceed. *)
Definition perform {X : Type} (e : event X) (s : state W) : option (X * state W) :=
  let log := calls s ++ [record_of e] in
  match e in event X return option (X * state W) with
  | EvCreateOrUpdate rg n p =>
    let '(r, w) := client_CreateOrUpdate rg n p (remote s) in
    Some (r, {| remote := w; held := held s; calls := log |})
  | EvGet rg n =>
    let '(r, w) := client_Get rg n (remote s) in
    Some (r, {| remote := w; held := held s; calls := log |})
  | EvDelete rg n =>
    let '(r, w) := client_Delete rg n (remote s) in
    Some (r, {| remote := w; held := held s; calls := log |})
  | EvLock n t =>
    match azureRMLockByName n t (held s) with
    | Some registry => Some (tt, {| remote := remote s; held := registry; calls := log |})
    | None => None
    end
  | EvUnlock n t =>
    Some (tt, {| remote := remote s; held := azureRMUnlockByName n t (held s);
                 calls := log |})
  end.

(** A handler run alone, to its end. *)
Fixpoint run {A : Type} (p : prog A) (s : state W) : outcome A * state W :=
  match p with
  | Ret a => (Returned a, s)
  | Panic => (Panicked, s)
  | Vis e k =>
    match perform e s with
    | Some (x, s') => run (k x) s'
    | None => (Blocked, s)
    end
  end.

End Run.

(** ** A scripted client

    The fake client of the tests: the remote world is the list of answers
    still to be given, one per call, in order. *)
Inductive reply : Type :=
| ReplyWorkflow (wf : logic.Workflow) (err : option error)
| ReplyResponse (resp : autorest.Response) (err : option error).

Definition zeroWorkflow : logic.Workflow :=
  {| logic.Response := autorest.zero; logic.Properties := None; logic.ID := None;
     logic.Name := None; logic.Location := None; logic.Tags := ∅ |}.

Definition scripted_workflow (w : list reply) : (logic.Workflow * option error) * list reply :=
  match w with
  | ReplyWorkflow wf err :: w' => ((wf, err), w')
  | _ => ((zeroWorkflow, Some (External "unexpected call")), tl w)
  end.

Definition scripted_response (w : list reply) : (autorest.Response * option error) * list reply :=
  match w with
  | ReplyResponse resp err :: w' => ((resp, err), w')
  | _ => ((autorest.zero, Some (External "unexpected call")), tl w)
  end.

#[export] Instance scripted : WorkflowsClient (list reply) := {
  client_CreateOrUpdate _ _ _ := scripted_workflow;
  client_Get _ _ := scripted_workflow;
  client_Delete _ _ := scripted_response
}.

(** Test doubles of the helpers. *)
Definition testID : string :=
  "/subscriptions/s1/resourceGroups/rg1/providers/Microsoft.Logic/workflows/wf1".

Definition testResourceID : ResourceID :=
  {| SubscriptionID := "s1"; ResourceGroup := "rg1"; Provider := "Microsoft.Logic";
     Path := {["workflows" := "wf1"]} |}.

Definition testParse (id : string) : result ResourceID :=
  if decide (id = testID) then Ok testResourceID
  else Err (External "Cannot parse Azure Id").

Definition testNormalize (location : string) : string := location.

Definition testExpandTags (m : gmap string iface) : gmap string (option string) :=
  (fun v => Some (default empty (assert_string v))) <$> m.

Definition testFlattenTags (m : gmap string (option string)) : gmap string iface :=
  (fun v => IString (default empty v)) <$> m.

Definition testNotFound (resp : autorest.Response) : bool :=
  bool_decide (autorest.StatusCode resp = Some 404%Z).

Definition testData : ResourceData :=
  {| Id := testID; name := "wf1"; location := "westus"; resource_group_name := "rg1";
     parameters := {["p1" := IString "v1"]};
     workflow_schema := default_workflow_schema;
     workflow_version := default_workflow_version;
     tags := ∅; access_endpoint := empty |}.

Definition start (w : list reply) : state (list reply) :=
  {| remote := w; held := ∅; calls := [] |}.


(** ** Configuration

    What the host hands to Create, by the schema of the resource (source
    lines 28-65): the required and optional attributes, an optional one
    being [None] when it is not set. The two maps hold strings. *)
Record Config : Type := {
  cfg_name : string;
  cfg_location : string;
  cfg_resource_group_name : string;
  cfg_parameters : gmap string string;
  cfg_workflow_schema : option string;
  cfg_workflow_version : option string;
  cfg_tags : gmap string string
}.

(** The resource data Create reads from: no id yet, every attribute as it
    is configured, the [Default] of the schema where none is. *)
Definition configured (c : Config) : ResourceData :=
  {| Id := empty;
     name := cfg_name c;
     location := cfg_location c;
     resource_group_name := cfg_resource_group_name c;
     parameters := IString <$> cfg_parameters c;
     workflow_schema := default default_workflow_schema (cfg_workflow_schema c);
     workflow_version := default default_workflow_version (cfg_workflow_version c);
     tags := IString <$> cfg_tags c;
     access_endpoint := empty |}.

(** ** Vocabulary of the properties *)

(** The typed parameter a configured string becomes. *)
Definition stringParameter (s : string) : option logic.WorkflowParameter :=
  Some {| logic.Type_ := logic.ParameterTypeString; logic.Value := IString s |}.

(** The definition document of a new workflow. *)
Definition newDefinition (workflowSchema workflowVersion : string) : gmap string iface :=
  <["$schema" := IString workflowSchema]>
  (<["contentVersion" := IString workflowVersion]>
  (<["actions" := IMap ∅]>
  (<["triggers" := IMap ∅]> ∅))).

(** The object Create and Update hand to create-or-update. *)
Definition request (location : string) (definition : iface)
    (parameters : gmap string (option logic.WorkflowParameter))
    (tags : gmap string (option string)) : logic.Workflow :=
  {| logic.Response := autorest.zero;
     logic.Properties := Some
       {| logic.AccessEndpoint := None;
          logic.Definition_ := definition;
          logic.Parameters := parameters |};
     logic.ID := None;
     logic.Name := None;
     logic.Location := Some location;
     logic.Tags := tags |}.

Section States.
Context {W : Type} {client : WorkflowsClient W}.

(** The state after a fetch, after the lock is taken and after it is
    given back. *)
Definition after_Get (rg n : string) (s : state W) : state W :=
  {| remote := (client_Get rg n (remote s)).2; held := held s;
     calls := calls s ++ [CallGet rg n] |}.

Definition locked (n t : string) (s : state W) : state W :=
  {| remote := remote s; held := held s ∪ {[(n, t)]}; calls := calls s ++ [CallLock n t] |}.

Definition unlocked (n t : string) (s : state W) : state W :=
  {| remote := remote s; held := held s ∖ {[(n, t)]}; calls := calls s ++ [CallUnlock n t] |}.

(** What follows a finished run. *)
Definition and_then {A B : Type} (r : outcome A * state W)
    (f : A -> state W -> outcome B * state W) : outcome B * state W :=
  match r with
  | (Returned a, s) => f a s
  | (Panicked, s) => (Panicked, s)
  | (Blocked, s) => (Blocked, s)
  end.

(** The deferred call after a finished run of the body. *)
Definition and_finally {A : Type} (r : outcome A * state W)
    (cleanup : state W -> outcome unit * state W) : outcome A * state W :=
  match r with
  | (Returned a, s) => and_then (cleanup s) (fun _ s' => (Returned a, s'))
  | (Panicked, s) => and_then (cleanup s) (fun _ s' => (Panicked, s'))
  | (Blocked, s) => (Blocked, s)
  end.

End States.

(** ** Handlers run side by side *)

(** The shape of a handler that works under the named lock [(n, t)]:
    [finished] is a handler that has ended, by a return or by a panic;
    [remote_only] makes calls to the remote client only; [inside] holds the
    lock, calls the remote client only, and whichever way it goes its last
    call is the unlock; [guarded] either ends at once or starts by taking
    the lock and is [inside] from there on. *)
Definition finished {A : Type} (p : prog A) : Prop :=
  match p with
  | Vis _ _ => False
  | _ => True
  end.

Fixpoint remote_only {A : Type} (p : prog A) : Prop :=
  match p with
  | Vis e k => is_remote (record_of e) = true /\ forall x, remote_only (k x)
  | _ => True
  end.

Fixpoint inside {A : Type} (n t : string) (p : prog A) : Prop :=
  match p with
  | Vis e k =>
    match record_of e with
    | CallUnlock n' t' => n' = n /\ t' = t /\ forall x, finished (k x)
    | CallLock _ _ => False
    | _ => forall x, inside n t (k x)
    end
  | _ => False
  end.

Definition guarded {A : Type} (n t : string) (p : prog A) : Prop :=
  match p with
  | Vis e k =>
    match record_of e with
    | CallLock n' t' => n' = n /\ t' = t /\ forall x, inside n t (k x)
    | _ => False
    end
  | _ => True
  end.

(** A trace of calls, each with the index of the handler that made it, read
    against the lock [key]: [critical key holder tr] follows who holds the
    lock and is [None] as soon as a handler locks a held lock, unlocks a
    lock it does not hold, or calls the remote client without holding it. *)
Fixpoint critical (key : string * string) (holder : option nat)
    (tr : list (nat * call_record)) : option (option nat) :=
  match tr with
  | [] => Some holder
  | (i, c) :: tr' =>
    match c with
    | CallLock n t =>
      if decide ((n, t) = key) then
        match holder with
        | None => critical key (Some i) tr'
        | Some _ => None
        end
      else critical key holder tr'
    | CallUnlock n t =>
      if decide ((n, t) = key) then
        if decide (holder = Some i) then critical key None tr' else None
      else critical key holder tr'
    | _ => if decide (holder = Some i) then critical key holder tr' else None
    end
  end.

Section Pool.
Context {W : Type} {client : WorkflowsClient W} {A : Type}.

(** One step of handler [i] of the pool: its next call, performed on the
    shared state; [None] when it has ended or waits for the lock. *)
Definition step (i : nat) (c : state W * list (prog A))
  : option ((nat * call_record) * (state W * list (prog A))) :=
  match c.2 !! i with
  | Some (Vis e k) =>
    match perform e c.1 with
    | Some (x, s') => Some ((i, record_of e), (s', <[i := k x]> c.2))
    | None => None
    end
  | _ => None
  end.

(** The pool run under a schedule, the list of the handlers to step in
    turn; [None] when the schedule asks for a step that cannot be made. *)
Fixpoint schedule (sched : list nat) (c : state W * list (prog A))
  : option (list (nat * call_record) * (state W * list (prog A))) :=
  match sched with
  | [] => Some ([], c)
  | i :: sched' =>
    match step i c with
    | Some (l, c') =>
      match schedule sched' c' with
      | Some (tr, c'') => Some (l :: tr, c'')
      | None => None
      end
    | None => None
    end
  end.

(** The invariant of a pool of handlers guarded by [(n, t)], [holder] being
    the handler that holds the lock, if any. *)
Definition phase (n t : string) (holder : option nat) (i : nat) (p : prog A) : Prop :=
  if decide (holder = Some i) then inside n t p else guarded n t p.

Definition pool_inv (n t : string) (holder : option nat)
    (c : state W * list (prog A)) : Prop :=
  (forall i p, c.2 !! i = Some p -> phase n t holder i p)
  /\ (forall i, holder = Some i -> (n, t) ∈ held c.1).

(** What a pool needs beside [pool_inv] to go on: while no handler holds
    the lock the key is free, and the holder is a handler of the pool. *)
Definition pool_ready (n t : string) (holder : option nat)
    (c : state W * list (prog A)) : Prop :=
  (holder = None -> (n, t) ∉ held c.1)
  /\ (forall i, holder = Some i -> is_Some (c.2 !! i)).

End Pool.

(** ** Fixtures *)

Definition testRead : ResourceData -> prog (ResourceData * option error) :=
  resourceArmLogicAppWorkflowRead testParse testNormalize testFlattenTags testNotFound.

Definition testCreate : ResourceData -> prog (ResourceData * option error) :=
  resourceArmLogicAppWorkflowCreate testParse testNormalize testExpandTags
    testFlattenTags testNotFound.

Definition testUpdate : ResourceData -> prog (ResourceData * option error) :=
  resourceArmLogicAppWorkflowUpdate testParse testNormalize testExpandTags
    testFlattenTags testNotFound.

Definition testDelete : ResourceData -> prog (ResourceData * option error) :=
  resourceArmLogicAppWorkflowDelete testParse testNotFound.

Definition status (code : Z) : autorest.Response :=
  {| autorest.StatusCode := Some code |}.

(** The answer of a fetch that found nothing, and of one that failed. *)
Definition failedWorkflow (code : Z) : logic.Workflow :=
  {| logic.Response := status code; logic.Properties := None; logic.ID := None;
     logic.Name := None; logic.Location := None; logic.Tags := ∅ |}.

Definition notFoundError : error := External "404 Not Found".
Definition internalError : error := External "500 Internal Server Error".

Definition notFound : reply := ReplyWorkflow (failedWorkflow 404) (Some notFoundError).
Definition serverError : reply := ReplyWorkflow (failedWorkflow 500) (Some internalError).

(** A workflow as the remote side returns it, around a definition. *)
Definition remoteProperties (definition : iface) : logic.WorkflowProperties :=
  {| logic.AccessEndpoint := Some "https://westus.logic.azure.com/workflows/wf1";
     logic.Definition_ := definition;
     logic.Parameters := {["p1" := stringParameter "v1"]} |}.

Definition remoteWorkflow (definition : iface) : logic.Workflow :=
  {| logic.Response := status 200;
     logic.Properties := Some (remoteProperties definition);
     logic.ID := Some testID;
     logic.Name := Some "wf1";
     logic.Location := Some "westus";
     logic.Tags := ∅ |}.

(** A definition that other resources have added an action to. *)
Definition editedDefinition : gmap string iface :=
  <["actions" := IMap {["a1" := IMap {["type" := IString "Http"]}]}]>
    (newDefinition default_workflow_schema default_workflow_version).

(** A definition without the ["$schema"] field. *)
Definition bareDefinition : gmap string iface :=
  {["contentVersion" := IString "1.0.0.0"]}.

Definition testConfig : Config :=
  {| cfg_name := "wf1"; cfg_location := "westus"; cfg_resource_group_name := "rg1";
     cfg_parameters := {["p1" := "v1"]};
     cfg_workflow_schema := None; cfg_workflow_version := None;
     cfg_tags := ∅ |}.

(** Resource data whose id does not parse. *)
Definition strayData : ResourceData := SetId "not-an-azure-id" testData.

(** A workflow that the remote side returns without its properties. *)
Definition bareWorkflow : logic.Workflow :=
  {| logic.Response := status 200;
     logic.Properties := None;
     logic.ID := Some testID;
     logic.Name := Some "wf1";
     logic.Location := Some "westus";
     logic.Tags := ∅ |}.

(** A remote workflow with a parameter of type Int. *)
Definition countParameter : logic.WorkflowParameter :=
  {| logic.Type_ := logic.ParameterTypeInt; logic.Value := INumber 3 |}.

Definition countedProperties : logic.WorkflowProperties :=
  {| logic.AccessEndpoint := None;
     logic.Definition_ := INil;
     logic.Parameters := {["count" := Some countParameter]} |}.

Definition countedWorkflow : logic.Workflow :=
  {| logic.Response := status 200;
     logic.Properties := Some countedProperties;
     logic.ID := Some testID;
     logic.Name := Some "wf1";
     logic.Location := None;
     logic.Tags := ∅ |}.

Arguments SetId : simpl never.
Arguments Set_name : simpl never.
Arguments Set_resource_group_name : simpl never.
Arguments Set_location : simpl never.
Arguments Set_access_endpoint : simpl never.
Arguments Set_workflow_schema : simpl never.
Arguments Set_workflow_version : simpl never.
Arguments Set_tags : simpl never.

(** * Properties *)

(** ** The parameter mappings *)

Lemma expand_strings (d : ResourceData) (m : gmap string string) :
  parameters d = IString <$> m ->
  expandLogicAppWorkflowParameters d = Some (stringParameter <$> m).
Proof.
  intros Hd. unfold expandLogicAppWorkflowParameters. rewrite Hd, map_fold_fmap.
  apply (map_fold_weak_ind (fun r m => r = Some (stringParameter <$> m))).
  - by rewrite fmap_empty.
  - intros i x m' r _ ->. simpl. by rewrite fmap_insert.
Qed.

Lemma flatten_strings (m : gmap string string) :
  flattenLogicAppWorkflowParameters (stringParameter <$> m) = Some (IString <$> m).
Proof.
  unfold flattenLogicAppWorkflowParameters. rewrite map_fold_fmap.
  apply (map_fold_weak_ind (fun r m => r = Some (IString <$> m))).
  - by rewrite fmap_empty.
  - intros i x m' r _ ->. simpl. by rewrite fmap_insert.
Qed.

(** A nil entry is dropped by flatten; a remote value that is not a string
    makes flatten panic. *)
Example flatten_drops_nil :
  flattenLogicAppWorkflowParameters {["a" := None; "b" := stringParameter "x"]}
  = Some {["b" := IString "x"]}.
Proof. reflexivity. Qed.

Example flatten_non_string :
  flattenLogicAppWorkflowParameters
    {["a" := Some {| logic.Type_ := logic.ParameterTypeInt; logic.Value := INumber 3 |}]}
  = None.
Proof. reflexivity. Qed.

(** C2: for every string-keyed, string-valued mapping [m], held by the
    resource data as its ["parameters"], flattening the expansion of [m]
    gives [m] back. *)
Theorem flatten_expand_id (m : gmap string string) (d : ResourceData) :
  expandLogicAppWorkflowParameters (Set_parameters (IString <$> m) d).1
    ≫= flattenLogicAppWorkflowParameters
  = Some (IString <$> m).
Proof.
  rewrite (expand_strings _ m) by reflexivity. simpl. apply flatten_strings.
Qed.

(** ** Running binds, defers and locks *)

Section RunLemmas.
Context {W : Type} {client : WorkflowsClient W}.

Lemma run_bind {A B : Type} (p : prog A) (f : A -> prog B) (s : state W) :
  run (p ≫= f) s = and_then (run p s) (fun a s' => run (f a) s').
Proof.
  revert s. induction p as [a| |X e k IH]; intros s; try reflexivity.
  change (Vis e k ≫= f) with (Vis e (fun x => k x ≫= f)). simpl.
  destruct (perform e s) as [[x s']|]; [apply IH | reflexivity].
Qed.

Lemma run_defer {A : Type} (cleanup : prog unit) (p : prog A) (s : state W) :
  run (defer cleanup p) s = and_finally (run p s) (run cleanup).
Proof.
  revert s. induction p as [a| |X e k IH]; intros s; simpl.
  - rewrite run_bind. reflexivity.
  - rewrite run_bind. reflexivity.
  - destruct (perform e s) as [[x s']|]; [apply IH | reflexivity].
Qed.

Lemma run_call {X : Type} (e : event X) (s : state W) :
  run (call e) s =
  match perform e s with
  | Some (x, s') => (Returned x, s')
  | None => (Blocked, s)
  end.
Proof. simpl. by destruct (perform e s) as [[x s']|]. Qed.

Lemma run_assert {A : Type} (o : option A) (s : state W) :
  run (assert o) s = match o with Some a => (Returned a, s) | None => (Panicked, s) end.
Proof. by destruct o. Qed.

Lemma run_finished {A : Type} (p : prog A) (s : state W) :
  finished p -> (run p s).2 = s /\ (run p s).1 <> Blocked.
Proof. destruct p; simpl; intros Hp; [done | done | destruct Hp]. Qed.

Lemma perform_lock (n t : string) (s : state W) :
  (n, t) ∉ held s -> perform (EvLock n t) s = Some (tt, locked n t s).
Proof. intros Hfree. simpl. unfold azureRMLockByName. by rewrite decide_False. Qed.

Lemma unlock_after_lock (k : string * string) (h : gset (string * string)) :
  k ∉ h -> (h ∪ {[k]}) ∖ {[k]} = h.
Proof.
  intros Hk. apply set_eq. intros x.
  rewrite elem_of_difference, elem_of_union, elem_of_singleton.
  split; [intros [[Hx|Hx] Hne]; [exact Hx | by destruct Hne] |].
  intros Hx. split; [by left | by intros ->].
Qed.

Lemma run_locked {A : Type} (n t : string) (p : prog A) (s : state W) :
  (n, t) ∉ held s ->
  run (call (EvLock n t);; defer (call (EvUnlock n t)) p) s =
  and_finally (run p (locked n t s)) (fun s' => (Returned tt, unlocked n t s')).
Proof.
  intros Hfree. rewrite run_bind, run_call, (perform_lock n t s Hfree). simpl.
  rewrite run_defer. reflexivity.
Qed.

Lemma and_finally_unlock {A : Type} (r : outcome A * state W) (n t : string) :
  r.1 <> Blocked ->
  and_finally r (fun s' => (Returned tt, unlocked n t s')) = (r.1, unlocked n t r.2).
Proof. destruct r as [[a| |] s']; simpl; done. Qed.

End RunLemmas.

(** ** The handlers *)

Section Handlers.
Variable parseAzureResourceID : string -> result ResourceID.
Variable azureRMNormalizeLocation : string -> string.
Variable expandTags : gmap string iface -> gmap string (option string).
Variable flattenTags : gmap string (option string) -> gmap string iface.
Variable ResponseWasNotFound : autorest.Response -> bool.
Context {W : Type} {client : WorkflowsClient W}.

Abbreviation Populate := (populate azureRMNormalizeLocation flattenTags).
Abbreviation Read :=
  (resourceArmLogicAppWorkflowRead parseAzureResourceID azureRMNormalizeLocation
     flattenTags ResponseWasNotFound).
Abbreviation Create :=
  (resourceArmLogicAppWorkflowCreate parseAzureResourceID azureRMNormalizeLocation
     expandTags flattenTags ResponseWasNotFound).
Abbreviation UpdateLocked :=
  (updateLocked parseAzureResourceID azureRMNormalizeLocation
     expandTags flattenTags ResponseWasNotFound).
Abbreviation Update :=
  (resourceArmLogicAppWorkflowUpdate parseAzureResourceID azureRMNormalizeLocation
     expandTags flattenTags ResponseWasNotFound).
Abbreviation DeleteLocked := (deleteLocked ResponseWasNotFound).
Abbreviation Delete :=
  (resourceArmLogicAppWorkflowDelete parseAzureResourceID ResponseWasNotFound).

(** *** Read *)

Lemma populate_finished (rg : string) (resp : logic.Workflow) (d : ResourceData) :
  finished (Populate rg resp d).
Proof.
  unfold populate.
  destruct (logic.Properties resp) as [props|]; simpl; [|done].
  destruct (flattenLogicAppWorkflowParameters _); simpl; [|done].
  destruct (logic.Definition_ props) as [| | | | |v|]; simpl; try done.
  destruct (assert_string (index v "$schema")); simpl; [|done].
  destruct (assert_string (index v "contentVersion")); simpl; done.
Qed.

Lemma Read_run (d : ResourceData) (id : ResourceID) (s : state W) :
  parseAzureResourceID (Id d) = Ok id ->
  let rg := ResourceGroup id in
  let n := index_string (Path id) "workflows" in
  run (Read d) s =
  match (client_Get rg n (remote s)).1 with
  | (resp, Some err) =>
    (Returned (if ResponseWasNotFound (logic.Response resp)
               then (SetId empty d, None)
               else (d, Some (Errorf "[ERROR] Error making Read request on Logic App Workflow %q (Resource Group %q): %+v"
                                     [ArgQ n; ArgQ rg; ArgV err]))),
     after_Get rg n s)
  | (resp, None) => run (Populate rg resp d) (after_Get rg n s)
  end.
Proof.
  intros Hid rg n. unfold resourceArmLogicAppWorkflowRead, after_Get. rewrite Hid.
  rewrite run_bind, run_call. simpl perform. fold rg n.
  destruct (client_Get rg n (remote s)) as [[resp [err|]] w]; simpl; [|done].
  by destruct (ResponseWasNotFound _).
Qed.

Lemma Read_state (d : ResourceData) (id : ResourceID) (s : state W) :
  parseAzureResourceID (Id d) = Ok id ->
  (run (Read d) s).2 = after_Get (ResourceGroup id) (index_string (Path id) "workflows") s
  /\ (run (Read d) s).1 <> Blocked.
Proof.
  intros Hid. rewrite (Read_run d id s Hid).
  destruct (client_Get _ _ _).1 as [resp [err|]]; [done|].
  apply run_finished, populate_finished.
Qed.

Lemma Read_calls (d : ResourceData) (s : state W) :
  exists l : list call_record,
    calls (run (Read d) s).2 = calls s ++ l
    /\ Forall (fun c => is_CreateOrUpdate c = false) l.
Proof.
  destruct (parseAzureResourceID (Id d)) as [id|e] eqn:Hid.
  - destruct (Read_state d id s Hid) as [-> _]. eexists [_]. split; [reflexivity|].
    by repeat constructor.
  - exists []. unfold resourceArmLogicAppWorkflowRead. rewrite Hid. simpl.
    by rewrite app_nil_r.
Qed.

(** Read copies the two definition fields when both are strings. *)
Lemma populate_definition (rg : string) (resp : logic.Workflow) (d : ResourceData)
    (props : logic.WorkflowProperties) (ps v : gmap string iface)
    (schema version : string) :
  logic.Properties resp = Some props ->
  flattenLogicAppWorkflowParameters (logic.Parameters props) = Some ps ->
  logic.Definition_ props = IMap v ->
  v !! "$schema" = Some (IString schema) ->
  v !! "contentVersion" = Some (IString version) ->
  exists d' : ResourceData,
    Populate rg resp d = Ret (d', None)
    /\ workflow_schema d' = schema /\ workflow_version d' = version.
Proof.
  intros Hprops Hps Hdef Hs Hv. unfold populate, index.
  rewrite Hprops, Hps. simpl. rewrite Hdef, Hs, Hv. simpl. eauto.
Qed.

(** C5: when the fetch of Read reports not-found, Read sets the id to the
    empty string and returns no error; on every other fetch error Read
    returns a RemoteError and leaves the resource data, the id with it, as
    it was. In both cases the fetch is the only call made. *)
Theorem Read_fetch_error (d : ResourceData) (id : ResourceID) (s : state W)
    (resp : logic.Workflow) (err : error) (w : W) :
  parseAzureResourceID (Id d) = Ok id ->
  let rg := ResourceGroup id in
  let n := index_string (Path id) "workflows" in
  client_Get rg n (remote s) = ((resp, Some err), w) ->
  let s' := {| remote := w; held := held s; calls := calls s ++ [CallGet rg n] |} in
  (ResponseWasNotFound (logic.Response resp) = true ->
   run (Read d) s = (Returned (SetId empty d, None), s') /\ Id (SetId empty d) = empty)
  /\
  (ResponseWasNotFound (logic.Response resp) = false ->
   exists e : error,
     run (Read d) s = (Returned (d, Some e), s') /\ is_RemoteError e = true).
Proof.
  intros Hid rg n Hget s'. rewrite (Read_run d id s Hid). unfold after_Get.
  fold rg n. rewrite Hget. simpl. split; intros ->; eauto.
Qed.

(** C8 (the code departs from it): Read panics when the definition of the
    fetched object is a map whose ["$schema"] or ["contentVersion"] field
    is absent or is not a string. *)
Theorem Read_panics_on_definition (d : ResourceData) (id : ResourceID) (s : state W)
    (resp : logic.Workflow) (w : W) (props : logic.WorkflowProperties)
    (ps v : gmap string iface) :
  parseAzureResourceID (Id d) = Ok id ->
  client_Get (ResourceGroup id) (index_string (Path id) "workflows") (remote s)
    = ((resp, None), w) ->
  logic.Properties resp = Some props ->
  flattenLogicAppWorkflowParameters (logic.Parameters props) = Some ps ->
  logic.Definition_ props = IMap v ->
  assert_string (index v "$schema") = None
    \/ assert_string (index v "contentVersion") = None ->
  (run (Read d) s).1 = Panicked.
Proof.
  intros Hid Hget Hprops Hps Hdef Hbad. rewrite (Read_run d id s Hid), Hget. simpl.
  unfold populate. rewrite Hprops, Hps. simpl. rewrite Hdef.
  destruct Hbad as [-> | Hv]; simpl; [done|].
  destruct (assert_string (index v "$schema")); simpl; [|done]. by rewrite Hv.
Qed.

(** *** Update and Delete *)

Lemma Update_run (d : ResourceData) (id : ResourceID) (s : state W) :
  parseAzureResourceID (Id d) = Ok id ->
  let rg := ResourceGroup id in
  let n := index_string (Path id) "workflows" in
  (n, logicAppResourceName) ∉ held s ->
  run (Update d) s =
  and_finally (run (UpdateLocked rg n d) (locked n logicAppResourceName s))
              (fun s' => (Returned tt, unlocked n logicAppResourceName s')).
Proof.
  intros Hid rg n Hfree. unfold resourceArmLogicAppWorkflowUpdate. rewrite Hid.
  by apply run_locked.
Qed.

Lemma Delete_run (d : ResourceData) (id : ResourceID) (s : state W) :
  parseAzureResourceID (Id d) = Ok id ->
  let rg := ResourceGroup id in
  let n := index_string (Path id) "workflows" in
  (n, logicAppResourceName) ∉ held s ->
  run (Delete d) s =
  and_finally (run (DeleteLocked rg n d) (locked n logicAppResourceName s))
              (fun s' => (Returned tt, unlocked n logicAppResourceName s')).
Proof.
  intros Hid rg n Hfree. unfold resourceArmLogicAppWorkflowDelete. rewrite Hid.
  by apply run_locked.
Qed.

(** The state after the lock, one remote call [c] and the unlock. *)
Lemma unlocked_after (n t : string) (c : call_record) (w : W) (s : state W) :
  (n, t) ∉ held s ->
  unlocked n t {| remote := w; held := held (locked n t s);
                  calls := calls (locked n t s) ++ [c] |}
  = {| remote := w; held := held s;
       calls := calls s ++ [CallLock n t; c; CallUnlock n t] |}.
Proof.
  intros Hfree. unfold unlocked, locked. simpl.
  rewrite (unlock_after_lock _ _ Hfree). by rewrite <- !app_assoc.
Qed.

(** C6: when the fetch Update starts with reports not-found, Update sets
    the id to the empty string and returns no error; when that fetch fails
    for another reason, Update returns a RemoteError. Either way the calls
    made are the lock, the fetch and the unlock: no create-or-update. *)
Theorem Update_fetch_error (d : ResourceData) (id : ResourceID) (s : state W)
    (read : logic.Workflow) (err : error) (w : W) :
  parseAzureResourceID (Id d) = Ok id ->
  let rg := ResourceGroup id in
  let n := index_string (Path id) "workflows" in
  (n, logicAppResourceName) ∉ held s ->
  client_Get rg n (remote s) = ((read, Some err), w) ->
  let s' := {| remote := w; held := held s;
               calls := calls s ++ [CallLock n logicAppResourceName; CallGet rg n;
                                    CallUnlock n logicAppResourceName] |} in
  (ResponseWasNotFound (logic.Response read) = true ->
   run (Update d) s = (Returned (SetId empty d, None), s') /\ Id (SetId empty d) = empty)
  /\
  (ResponseWasNotFound (logic.Response read) = false ->
   exists e : error,
     run (Update d) s = (Returned (d, Some e), s') /\ is_RemoteError e = true).
Proof.
  intros Hid rg n Hfree Hget s'. rewrite (Update_run d id s Hid Hfree). fold rg n.
  unfold updateLocked. rewrite run_bind, run_call. simpl perform. rewrite Hget. simpl.
  pose proof (unlocked_after n logicAppResourceName (CallGet rg n) w s Hfree) as Hs.
  simpl in Hs. split; intros ->; simpl; rewrite Hs; eauto.
Qed.

(** C10: when the fetch Update starts with succeeds and the object it
    returns has no workflow properties, Update returns an error, the
    resource data and its id are as they were, and the calls made are the
    lock, the fetch and the unlock: no create-or-update. *)
Theorem Update_nil_properties (d : ResourceData) (id : ResourceID) (s : state W)
    (read : logic.Workflow) (w : W) :
  parseAzureResourceID (Id d) = Ok id ->
  let rg := ResourceGroup id in
  let n := index_string (Path id) "workflows" in
  (n, logicAppResourceName) ∉ held s ->
  client_Get rg n (remote s) = ((read, None), w) ->
  logic.Properties read = None ->
  run (Update d) s =
  (Returned (d, Some (Errorf "[ERROR] Error parsing Logic App Workflow - `WorkflowProperties` is nil" [])),
   {| remote := w; held := held s;
      calls := calls s ++ [CallLock n logicAppResourceName; CallGet rg n;
                           CallUnlock n logicAppResourceName] |}).
Proof.
  intros Hid rg n Hfree Hget Hnil. rewrite (Update_run d id s Hid Hfree). fold rg n.
  unfold updateLocked. rewrite run_bind, run_call. simpl perform. rewrite Hget. simpl.
  rewrite Hnil. simpl.
  pose proof (unlocked_after n logicAppResourceName (CallGet rg n) w s Hfree) as Hs.
  simpl in Hs. by rewrite Hs.
Qed.

(** C1, as amended: when the fetch Update starts with returns a workflow
    that carries its workflow properties, Update sends one create-or-update
    request; its definition is the definition that fetch returned, as it
    is, and its location, parameters and tags are those of the new
    configuration. (A fetched workflow without properties is turned down by
    the guard of source lines 142-144, and nothing is sent.) *)
Theorem Update_preserves_definition (d : ResourceData) (id : ResourceID) (s : state W)
    (read : logic.Workflow) (w : W) (props : logic.WorkflowProperties)
    (m : gmap string string) :
  parseAzureResourceID (Id d) = Ok id ->
  let rg := ResourceGroup id in
  let n := index_string (Path id) "workflows" in
  (n, logicAppResourceName) ∉ held s ->
  client_Get rg n (remote s) = ((read, None), w) ->
  logic.Properties read = Some props ->
  parameters d = IString <$> m ->
  let sent := request (azureRMNormalizeLocation (location d))
                      (logic.Definition_ props)
                      (stringParameter <$> m)
                      (expandTags (tags d)) in
  exists rest : list call_record,
    calls (run (Update d) s).2 =
      calls s ++ [CallLock n logicAppResourceName; CallGet rg n;
                  CallCreateOrUpdate rg n sent] ++ rest
    /\ Forall (fun c => is_CreateOrUpdate c = false) rest
    /\ (run (Update d) s).1 <> Blocked.
Proof.
  intros Hid rg n Hfree Hget Hprops Hm sent.
  rewrite (Update_run d id s Hid Hfree). fold rg n.
  unfold updateLocked. rewrite run_bind, run_call. simpl perform. rewrite Hget. simpl.
  rewrite Hprops, run_bind, run_assert, (expand_strings d m Hm). simpl and_then.
  unfold sent, request.
  destruct (client_CreateOrUpdate rg n _ w) as [[r2 [e2|]] w2]; simpl.
  - exists [CallUnlock n logicAppResourceName]. rewrite <- !app_assoc. simpl.
    split; [reflexivity | split; [by repeat constructor | done]].
  - match goal with |- context [run (Read d) ?s0] =>
      destruct (Read_state d id s0 Hid) as [Hst Hnb] end.
    rewrite (and_finally_unlock _ _ _ Hnb). simpl. rewrite Hst. simpl. fold rg n.
    exists [CallGet rg n; CallUnlock n logicAppResourceName].
    split; [by rewrite <- !app_assoc | split; [by repeat constructor | done]].
Qed.

(** C7: Delete returns no error when the remote delete succeeds and when
    it reports not-found; any other error of the remote delete comes back
    as a RemoteError. The calls made are the lock, the delete and the
    unlock. *)
Theorem Delete_outcome (d : ResourceData) (id : ResourceID) (s : state W)
    (resp : autorest.Response) (err : option error) (w : W) :
  parseAzureResourceID (Id d) = Ok id ->
  let rg := ResourceGroup id in
  let n := index_string (Path id) "workflows" in
  (n, logicAppResourceName) ∉ held s ->
  client_Delete rg n (remote s) = ((resp, err), w) ->
  let s' := {| remote := w; held := held s;
               calls := calls s ++ [CallLock n logicAppResourceName; CallDelete rg n;
                                    CallUnlock n logicAppResourceName] |} in
  (err = None -> run (Delete d) s = (Returned (d, None), s'))
  /\
  (err <> None -> ResponseWasNotFound resp = true ->
   run (Delete d) s = (Returned (d, None), s'))
  /\
  (forall cause : error,
     err = Some cause -> ResponseWasNotFound resp = false ->
     exists e : error,
       run (Delete d) s = (Returned (d, Some e), s') /\ is_RemoteError e = true
       /\ e = Errorf "Error issuing delete request for Logic App Workflow %q (Resource Group %q): %+v"
                     [ArgQ n; ArgQ rg; ArgV cause]).
Proof.
  intros Hid rg n Hfree Hdel s'. rewrite (Delete_run d id s Hid Hfree). fold rg n.
  unfold deleteLocked. rewrite run_bind, run_call. simpl perform. rewrite Hdel. simpl.
  pose proof (unlocked_after n logicAppResourceName (CallDelete rg n) w s Hfree) as Hs.
  simpl in Hs. split; [|split].
  - intros ->. simpl. by rewrite Hs.
  - intros Herr Hnf. destruct err as [e|]; [|done]. rewrite Hnf. simpl. by rewrite Hs.
  - intros cause -> Hnf. rewrite Hnf. simpl. rewrite Hs. eauto.
Qed.

(** *** Create *)

Lemma Create_run (d : ResourceData) (m : gmap string string) (s : state W) :
  parameters d = IString <$> m ->
  let rg := resource_group_name d in
  let n := name d in
  let sent := request (azureRMNormalizeLocation (location d))
                      (IMapPtr (newDefinition (workflow_schema d) (workflow_version d)))
                      (stringParameter <$> m)
                      (expandTags (tags d)) in
  run (Create d) s =
  let '((_, err1), w1) := client_CreateOrUpdate rg n sent (remote s) in
  let s1 := {| remote := w1; held := held s;
               calls := calls s ++ [CallCreateOrUpdate rg n sent] |} in
  match err1 with
  | Some e =>
    (Returned (d, Some (Errorf "[ERROR] Error creating Logic App Workflow %q (Resource Group %q): %+v"
                               [ArgQ n; ArgQ rg; ArgV e])), s1)
  | None =>
    let '((read, err2), w2) := client_Get rg n w1 in
    let s2 := {| remote := w2; held := held s;
                 calls := calls s ++ [CallCreateOrUpdate rg n sent; CallGet rg n] |} in
    match err2 with
    | Some e =>
      (Returned (d, Some (Errorf "[ERROR] Error making Read request on Logic App Workflow %q (Resource Group %q): %+v"
                                 [ArgQ n; ArgQ rg; ArgV e])), s2)
    | None =>
      match logic.ID read with
      | None =>
        (Returned (d, Some (Errorf "[ERROR] Cannot read Logic App Workflow %q (Resource Group %q) ID"
                                   [ArgQ n; ArgQ rg])), s2)
      | Some i => run (Read (SetId i d)) s2
      end
    end
  end.
Proof.
  intros Hm rg n sent. unfold resourceArmLogicAppWorkflowCreate.
  rewrite run_bind, run_assert, (expand_strings d m Hm). simpl and_then.
  fold rg n. unfold sent, request, newDefinition.
  destruct (client_CreateOrUpdate rg n _ (remote s)) as [[r1 [e1|]] w1]; simpl; [done|].
  destruct (client_Get rg n w1) as [[read [e2|]] w2]; simpl;
    [by rewrite <- app_assoc|].
  destruct (logic.ID read) as [i|]; simpl; by rewrite <- app_assoc.
Qed.

(** C3, as amended: Create returns a RemoteError exactly when the
    create-or-update call errors, the fetch after it errors, the fetched
    object has no identifier, or the Read it hands over to returns one. In
    the first three cases it leaves the resource data as it was; otherwise
    it stores the fetched identifier as the id, and what it does and
    returns from there on is what Read does and returns. *)
Theorem Create_outcome (d : ResourceData) (m : gmap string string) (s : state W)
    (r1 read : logic.Workflow) (err1 err2 : option error) (w1 w2 : W) :
  parameters d = IString <$> m ->
  let rg := resource_group_name d in
  let n := name d in
  let sent := request (azureRMNormalizeLocation (location d))
                      (IMapPtr (newDefinition (workflow_schema d) (workflow_version d)))
                      (stringParameter <$> m)
                      (expandTags (tags d)) in
  client_CreateOrUpdate rg n sent (remote s) = ((r1, err1), w1) ->
  client_Get rg n w1 = ((read, err2), w2) ->
  let s1 := {| remote := w1; held := held s;
               calls := calls s ++ [CallCreateOrUpdate rg n sent] |} in
  let s2 := {| remote := w2; held := held s;
               calls := calls s ++ [CallCreateOrUpdate rg n sent; CallGet rg n] |} in
  (forall cause : error, err1 = Some cause ->
     exists e : error,
       run (Create d) s = (Returned (d, Some e), s1) /\ is_RemoteError e = true
       /\ e = Errorf "[ERROR] Error creating Logic App Workflow %q (Resource Group %q): %+v"
                     [ArgQ n; ArgQ rg; ArgV cause])
  /\
  (forall cause : error, err1 = None -> err2 = Some cause ->
     exists e : error,
       run (Create d) s = (Returned (d, Some e), s2) /\ is_RemoteError e = true
       /\ e = Errorf "[ERROR] Error making Read request on Logic App Workflow %q (Resource Group %q): %+v"
                     [ArgQ n; ArgQ rg; ArgV cause])
  /\
  (err1 = None -> err2 = None -> logic.ID read = None ->
     exists e : error,
       run (Create d) s = (Returned (d, Some e), s2) /\ is_RemoteError e = true
       /\ e = Errorf "[ERROR] Cannot read Logic App Workflow %q (Resource Group %q) ID"
                     [ArgQ n; ArgQ rg])
  /\
  (forall i : string, err1 = None -> err2 = None -> logic.ID read = Some i ->
     run (Create d) s = run (Read (SetId i d)) s2 /\ Id (SetId i d) = i)
  /\
  ((exists (e : error) (d' : ResourceData) (s' : state W),
      run (Create d) s = (Returned (d', Some e), s') /\ is_RemoteError e = true)
   <->
   err1 <> None \/ err2 <> None \/ logic.ID read = None
   \/ exists (i : string) (e : error) (d' : ResourceData) (s' : state W),
        logic.ID read = Some i
        /\ run (Read (SetId i d)) s2 = (Returned (d', Some e), s')
        /\ is_RemoteError e = true).
Proof.
  intros Hm rg n sent Hcou Hget s1 s2. rewrite (Create_run d m s Hm).
  fold rg n sent. rewrite Hcou.
  split; [|split; [|split; [|split]]].
  - intros cause ->. eauto.
  - intros cause -> ->. rewrite Hget. eauto.
  - intros -> -> Hnil. rewrite Hget, Hnil. eauto.
  - intros i -> -> Hi. rewrite Hget, Hi. done.
  - destruct err1 as [e1|].
    { split; [intros _; by left | intros _; by eexists _, _, _]. }
    rewrite Hget. destruct err2 as [e2|].
    { split; [intros _; right; by left | intros _; by eexists _, _, _]. }
    destruct (logic.ID read) as [i|] eqn:Hi.
    + fold s2. split.
      * intros (e & d' & s' & Hrun & He). do 3 right. by exists i, e, d', s'.
      * intros [H|[H|[H|(i' & e & d' & s' & Hi' & Hrun & He)]]]; try done.
        injection Hi' as <-. by exists e, d', s'.
    + split; [intros _; do 2 right; by left | intros _; by eexists _, _, _].
Qed.

(** C4: for every configuration, Create sends one create-or-update
    request, and it is its first call. The definition of the object sent
    has the four fields ["$schema"], ["contentVersion"], ["actions"] and
    ["triggers"] and no other: the configured schema URL and version, or
    their defaults, and two empty maps. Its parameters are the expansion of
    the configured parameters, each value tagged as a string. *)
Theorem Create_request (c : Config) (s : state W) :
  let d := configured c in
  let definition :=
    newDefinition (default default_workflow_schema (cfg_workflow_schema c))
                  (default default_workflow_version (cfg_workflow_version c)) in
  exists (sent : logic.Workflow) (props : logic.WorkflowProperties)
         (rest : list call_record),
    calls (run (Create d) s).2 =
      calls s ++ CallCreateOrUpdate (cfg_resource_group_name c) (cfg_name c) sent :: rest
    /\ Forall (fun r => is_CreateOrUpdate r = false) rest
    /\ logic.Properties sent = Some props
    /\ logic.Definition_ props = IMapPtr definition
    /\ dom definition = {["$schema"; "contentVersion"; "actions"; "triggers"]}
    /\ definition !! "$schema"
       = Some (IString (default default_workflow_schema (cfg_workflow_schema c)))
    /\ definition !! "contentVersion"
       = Some (IString (default default_workflow_version (cfg_workflow_version c)))
    /\ definition !! "actions" = Some (IMap ∅)
    /\ definition !! "triggers" = Some (IMap ∅)
    /\ expandLogicAppWorkflowParameters d = Some (logic.Parameters props)
    /\ logic.Parameters props = stringParameter <$> cfg_parameters c.
Proof.
  intros d definition.
  assert (Hm : parameters d = IString <$> cfg_parameters c) by reflexivity.
  set (sent := request (azureRMNormalizeLocation (location d))
                       (IMapPtr (newDefinition (workflow_schema d) (workflow_version d)))
                       (stringParameter <$> cfg_parameters c)
                       (expandTags (tags d))).
  exists sent. eexists.
  assert (Hcalls : exists rest : list call_record,
    calls (run (Create d) s).2 =
      calls s ++ CallCreateOrUpdate (cfg_resource_group_name c) (cfg_name c) sent :: rest
    /\ Forall (fun r => is_CreateOrUpdate r = false) rest).
  { rewrite (Create_run d _ s Hm). fold sent.
    destruct (client_CreateOrUpdate _ _ _ _) as [[r1 [e1|]] w1]; simpl.
    { exists []. by split. }
    destruct (client_Get _ _ _) as [[read [e2|]] w2]; simpl.
    { exists [CallGet (cfg_resource_group_name c) (cfg_name c)]. split; [done|].
      by repeat constructor. }
    destruct (logic.ID read) as [i|]; simpl.
    - match goal with |- context [run (Read ?d0) ?s0] =>
        destruct (Read_calls d0 s0) as (l & -> & Hl) end.
      exists (CallGet (cfg_resource_group_name c) (cfg_name c) :: l). simpl.
      split; [by rewrite <- app_assoc|]. by constructor.
    - exists [CallGet (cfg_resource_group_name c) (cfg_name c)]. split; [done|].
      by repeat constructor. }
  destruct Hcalls as (rest & Hcalls & Hrest). exists rest.
  split; [exact Hcalls|]. split; [exact Hrest|].
  split; [reflexivity|]. split; [reflexivity|].
  split; [|repeat split; try reflexivity; by apply expand_strings].
  unfold definition, newDefinition. rewrite !dom_insert_L, dom_empty_L.
  apply set_eq. intros x. rewrite !elem_of_union, !elem_of_singleton, elem_of_empty.
  tauto.
Qed.

(** *** Update and Delete work under the lock *)

Lemma remote_only_finished {A : Type} (p : prog A) : finished p -> remote_only p.
Proof. by destruct p. Qed.

Lemma remote_only_bind {A B : Type} (p : prog A) (f : A -> prog B) :
  remote_only p -> (forall a, remote_only (f a)) -> remote_only (p ≫= f).
Proof.
  intros Hp Hf. induction p as [a| |X e k IH]; [apply Hf | done |].
  destruct Hp as [He Hk]. split; [exact He|]. intros x. by apply IH.
Qed.

Lemma remote_only_Read (d : ResourceData) : remote_only (Read d).
Proof.
  unfold resourceArmLogicAppWorkflowRead.
  destruct (parseAzureResourceID (Id d)) as [id|e]; [|done].
  split; [reflexivity|]. intros [resp [err|]].
  - simpl. by destruct (ResponseWasNotFound _).
  - apply remote_only_finished, populate_finished.
Qed.

Lemma remote_only_updateLocked (rg n : string) (d : ResourceData) :
  remote_only (UpdateLocked rg n d).
Proof.
  unfold updateLocked. split; [reflexivity|]. intros [read [err|]].
  - simpl. by destruct (ResponseWasNotFound _).
  - simpl. destruct (logic.Properties read) as [props|]; [|done].
    apply remote_only_bind; [by destruct (expandLogicAppWorkflowParameters d)|].
    intros ps. split; [reflexivity|].
    intros [r [err|]]; [done | apply remote_only_Read].
Qed.

Lemma remote_only_deleteLocked (rg n : string) (d : ResourceData) :
  remote_only (DeleteLocked rg n d).
Proof.
  unfold deleteLocked. split; [reflexivity|].
  intros [resp [err|]]; simpl; [by destruct (ResponseWasNotFound _) | done].
Qed.

(** The deferred unlock is the last call on every path of the body, also
    on those that end in a panic. *)
Lemma inside_defer {A : Type} (n t : string) (p : prog A) :
  remote_only p -> inside n t (defer (call (EvUnlock n t)) p).
Proof.
  induction p as [a| |X e k IH]; intros Hp; [done | done |].
  destruct Hp as [He Hk]. simpl.
  destruct e; try discriminate He; intros x; by apply IH.
Qed.

Lemma guarded_locked {A : Type} (n t : string) (p : prog A) :
  remote_only p -> guarded n t (call (EvLock n t);; defer (call (EvUnlock n t)) p).
Proof. intros Hp. repeat split. intros x. by apply inside_defer. Qed.

Lemma guarded_Update (d : ResourceData) (id : ResourceID) :
  parseAzureResourceID (Id d) = Ok id ->
  guarded (index_string (Path id) "workflows") logicAppResourceName (Update d).
Proof.
  intros Hid. unfold resourceArmLogicAppWorkflowUpdate. rewrite Hid.
  apply guarded_locked, remote_only_updateLocked.
Qed.

Lemma guarded_Delete (d : ResourceData) (id : ResourceID) :
  parseAzureResourceID (Id d) = Ok id ->
  guarded (index_string (Path id) "workflows") logicAppResourceName (Delete d).
Proof.
  intros Hid. unfold resourceArmLogicAppWorkflowDelete. rewrite Hid.
  apply guarded_locked, remote_only_deleteLocked.
Qed.

(** *** The lock keeps guarded handlers apart *)

Section Mutex.
Context {A : Type}.
Variables n t : string.

Lemma critical_cons (holder holder' : option nat) (l : nat * call_record)
    (tr : list (nat * call_record)) :
  critical (n, t) holder [l] = Some holder' ->
  critical (n, t) holder (l :: tr) = critical (n, t) holder' tr.
Proof.
  destruct l as [i c]. simpl.
  destruct c; repeat case_decide; destruct holder; simpl; congruence.
Qed.

Lemma phase_insert (holder holder' : option nat) (ts : list (prog A))
    (i : nat) (q : prog A) :
  (forall j (p : prog A), ts !! j = Some p -> phase n t holder j p) ->
  phase n t holder' i q ->
  (forall j (p : prog A), j <> i -> phase n t holder j p -> phase n t holder' j p) ->
  forall j (p : prog A), <[i := q]> ts !! j = Some p -> phase n t holder' j p.
Proof.
  intros Hts Hq Hother j p Hj. destruct (decide (j = i)) as [->|Hne].
  - destruct (decide (i < length ts)) as [Hlt|Hge].
    + rewrite list_lookup_insert_eq in Hj by done. by injection Hj as <-.
    + rewrite list_insert_ge in Hj by lia. apply lookup_lt_Some in Hj. lia.
  - rewrite list_lookup_insert_ne in Hj by done. apply Hother; [done|]. by apply Hts.
Qed.

Lemma perform_remote_held {X : Type} (e : event X) (s s' : state W) (x : X) :
  is_remote (record_of e) = true ->
  perform e s = Some (x, s') -> held s' = held s.
Proof.
  destruct e; simpl; try discriminate; intros _.
  - destruct (client_CreateOrUpdate _ _ _ _) as [r w]. by intros [= _ <-].
  - destruct (client_Get _ _ _) as [r w]. by intros [= _ <-].
  - destruct (client_Delete _ _ _) as [r w]. by intros [= _ <-].
Qed.

(** A remote call of the handler that holds the lock keeps the invariant. *)
Lemma remote_step_inv {X : Type} (holder : option nat) (s s' : state W)
    (ts : list (prog A)) (i : nat) (e : event X) (k : X -> prog A) (x : X) :
  pool_inv n t holder (s, ts) ->
  holder = Some i ->
  is_remote (record_of e) = true ->
  perform e s = Some (x, s') ->
  inside n t (k x) ->
  pool_inv n t holder (s', <[i := k x]> ts).
Proof.
  intros [Hph Hheld] Hh He Hperf Hin. split; simpl.
  - apply (phase_insert holder); [done| |done].
    unfold phase. by rewrite decide_True by done.
  - intros j Hj. rewrite (perform_remote_held e s s' x He Hperf). by eapply Hheld.
Qed.

Lemma step_inv (holder : option nat) (c c' : state W * list (prog A))
    (i : nat) (l : nat * call_record) :
  pool_inv n t holder c ->
  step i c = Some (l, c') ->
  exists holder', critical (n, t) holder [l] = Some holder' /\ pool_inv n t holder' c'.
Proof.
  destruct c as [s ts]. intros Hinv. pose proof Hinv as [Hph Hheld].
  unfold step. simpl.
  destruct (ts !! i) as [[a| |X e k]|] eqn:Hi; try discriminate.
  destruct (perform e s) as [[x s']|] eqn:Hperf; [|discriminate].
  intros [= <- <-]. specialize (Hph i _ Hi) as Hp. unfold phase in Hp.
  simpl in Hph, Hheld. destruct (decide (holder = Some i)) as [Hh|Hh].
  - (* handler [i] holds the lock *)
    simpl in Hp.
    destruct (record_of e) as [rg nm pr|rg nm|rg nm|n' t'|n' t'] eqn:He; try done.
    + exists holder. split; [done|].
      apply (remote_step_inv holder s s' ts i e k x); [done|done|by rewrite He|done|apply Hp].
    + exists holder. split; [done|].
      apply (remote_step_inv holder s s' ts i e k x); [done|done|by rewrite He|done|apply Hp].
    + exists holder. split; [done|].
      apply (remote_step_inv holder s s' ts i e k x); [done|done|by rewrite He|done|apply Hp].
    + destruct Hp as (-> & -> & Hfin). rewrite decide_True by done.
      exists None. split; [done|]. split; simpl; [|done].
      apply (phase_insert holder); [done| |].
      * unfold phase. rewrite decide_False by done.
        specialize (Hfin x). by destruct (k x).
      * intros j p Hne. unfold phase. rewrite decide_False by congruence.
        by rewrite decide_False by done.
  - (* handler [i] does not hold the lock *)
    simpl in Hp. destruct e as [rg nm pr|rg nm|rg nm|n' t'|n' t']; try done.
    simpl in Hp. destruct Hp as (-> & -> & Hin). simpl in Hperf.
    unfold azureRMLockByName in Hperf.
    destruct (decide ((n, t) ∈ held s)) as [|Hfree]; [discriminate|].
    injection Hperf as <- <-. simpl. rewrite decide_True by done.
    destruct holder as [j|]; [by destruct Hfree; eapply Hheld|].
    exists (Some i). split; [done|]. split; simpl.
    + apply (phase_insert None); [done| |].
      * unfold phase. rewrite decide_True by done. apply Hin.
      * intros j p Hne. unfold phase. rewrite decide_False by done.
        by rewrite decide_False by congruence.
    + intros _ _. apply elem_of_union_r. by apply elem_of_singleton.
Qed.

Lemma schedule_inv (sched : list nat) (holder : option nat)
    (c c' : state W * list (prog A)) (tr : list (nat * call_record)) :
  pool_inv n t holder c ->
  schedule sched c = Some (tr, c') ->
  exists holder', critical (n, t) holder tr = Some holder' /\ pool_inv n t holder' c'.
Proof.
  revert holder c tr. induction sched as [|i sched IH]; intros holder c tr Hinv; simpl.
  - intros [= <- <-]. by exists holder.
  - destruct (step i c) as [[l c1]|] eqn:Hstep; [|discriminate].
    destruct (schedule sched c1) as [[tr1 c2]|] eqn:Hrest; [|discriminate].
    intros [= <- <-].
    destruct (step_inv holder c c1 i l Hinv Hstep) as (h1 & Hl & Hinv1).
    destruct (IH h1 c1 tr1 Hinv1 Hrest) as (h2 & Htr & Hinv2).
    exists h2. split; [|done]. by rewrite (critical_cons holder h1).
Qed.

Lemma pool_inv_finished (holder : option nat) (c : state W * list (prog A))
    (i : nat) (p : prog A) :
  pool_inv n t holder c -> c.2 !! i = Some p -> finished p -> holder <> Some i.
Proof.
  intros [Hph _] Hi Hfin Hh. specialize (Hph i p Hi). unfold phase in Hph.
  rewrite decide_True in Hph by done. by destruct p.
Qed.

End Mutex.


End Handlers.

(** ** The handlers against the scripted client *)

(** The example of the spec: a workflow is created from a configuration
    with one parameter; the Read that ends Create gives the parameter back
    as the string it was. *)
Example Create_then_Read :
  exists d : ResourceData,
    (run (testCreate (configured testConfig))
         (start [ReplyWorkflow (remoteWorkflow INil) None;
                 ReplyWorkflow (remoteWorkflow INil) None;
                 ReplyWorkflow
                   (remoteWorkflow
                      (IMap (newDefinition default_workflow_schema default_workflow_version)))
                   None])).1
    = Returned (d, None)
    /\ Id d = testID
    /\ parameters d = {["p1" := IString "v1"]}
    /\ workflow_schema d = default_workflow_schema
    /\ workflow_version d = default_workflow_version.
Proof. eexists. split; [vm_compute; reflexivity|]. by repeat split. Qed.

(** A schedule that lets Delete in while Update holds the lock cannot be
    run, and a trace in which it happened would not be critical. *)
Example interleaving_refused :
  schedule [0; 1] (start [notFound], [testUpdate testData; testDelete testData]) = None.
Proof. vm_compute. reflexivity. Qed.

Example interleaved_not_critical :
  critical ("wf1", logicAppResourceName) None
    [(0, CallLock "wf1" logicAppResourceName); (1, CallDelete "rg1" "wf1")]
  = None.
Proof. reflexivity. Qed.

Lemma start_free (w : list reply) (k : string * string) : k ∉ held (start w).
Proof. apply not_elem_of_empty. Qed.

Lemma Read_fetch_error_witness :
  run (testRead testData) (start [notFound])
  = (Returned (SetId empty testData, None),
     {| remote := []; held := ∅; calls := [CallGet "rg1" "wf1"] |})
  /\ exists e : error,
       run (testRead testData) (start [serverError])
       = (Returned (testData, Some e),
          {| remote := []; held := ∅; calls := [CallGet "rg1" "wf1"] |})
       /\ is_RemoteError e = true.
Proof.
  split.
  - apply (proj1 (Read_fetch_error (client := scripted) testParse testNormalize testFlattenTags testNotFound
                    testData testResourceID (start [notFound])
                    (failedWorkflow 404) notFoundError []
                    eq_refl eq_refl)).
    reflexivity.
  - apply (proj2 (Read_fetch_error (client := scripted) testParse testNormalize testFlattenTags testNotFound
                    testData testResourceID (start [serverError])
                    (failedWorkflow 500) internalError []
                    eq_refl eq_refl)).
    reflexivity.
Defined.

Lemma Read_panics_on_definition_witness :
  (run (testRead testData) (start [ReplyWorkflow (remoteWorkflow (IMap bareDefinition)) None])).1
  = Panicked.
Proof.
  apply (Read_panics_on_definition (client := scripted) testParse testNormalize testFlattenTags testNotFound
           testData testResourceID
           (start [ReplyWorkflow (remoteWorkflow (IMap bareDefinition)) None])
           (remoteWorkflow (IMap bareDefinition)) []
           (remoteProperties (IMap bareDefinition))
           {["p1" := IString "v1"]} bareDefinition
           eq_refl eq_refl eq_refl eq_refl eq_refl).
  left. reflexivity.
Defined.

Lemma Update_fetch_error_witness :
  run (testUpdate testData) (start [notFound])
  = (Returned (SetId empty testData, None),
     {| remote := []; held := ∅;
        calls := [CallLock "wf1" logicAppResourceName; CallGet "rg1" "wf1";
                  CallUnlock "wf1" logicAppResourceName] |})
  /\ exists e : error,
       run (testUpdate testData) (start [serverError])
       = (Returned (testData, Some e),
          {| remote := []; held := ∅;
             calls := [CallLock "wf1" logicAppResourceName; CallGet "rg1" "wf1";
                       CallUnlock "wf1" logicAppResourceName] |})
       /\ is_RemoteError e = true.
Proof.
  split.
  - apply (proj1 (Update_fetch_error (client := scripted) testParse testNormalize testExpandTags testFlattenTags
                    testNotFound testData testResourceID (start [notFound])
                    (failedWorkflow 404) notFoundError []
                    eq_refl (start_free _ _) eq_refl)).
    reflexivity.
  - apply (proj2 (Update_fetch_error (client := scripted) testParse testNormalize testExpandTags testFlattenTags
                    testNotFound testData testResourceID (start [serverError])
                    (failedWorkflow 500) internalError []
                    eq_refl (start_free _ _) eq_refl)).
    reflexivity.
Defined.

Lemma Update_nil_properties_witness :
  run (testUpdate testData) (start [ReplyWorkflow zeroWorkflow None])
  = (Returned (testData,
               Some (Errorf "[ERROR] Error parsing Logic App Workflow - `WorkflowProperties` is nil" [])),
     {| remote := []; held := ∅;
        calls := [CallLock "wf1" logicAppResourceName; CallGet "rg1" "wf1";
                  CallUnlock "wf1" logicAppResourceName] |}).
Proof.
  apply (Update_nil_properties (client := scripted) testParse testNormalize testExpandTags testFlattenTags
           testNotFound testData testResourceID (start [ReplyWorkflow zeroWorkflow None])
           zeroWorkflow [] eq_refl (start_free _ _) eq_refl eq_refl).
Defined.

Lemma testData_parameters : parameters testData = IString <$> {["p1" := "v1"]}.
Proof. vm_compute. reflexivity. Qed.

Lemma Update_preserves_definition_witness :
  exists rest : list call_record,
    calls (run (testUpdate testData)
               (start [ReplyWorkflow (remoteWorkflow (IMap editedDefinition)) None;
                       ReplyWorkflow (remoteWorkflow (IMap editedDefinition)) None;
                       ReplyWorkflow (remoteWorkflow (IMap editedDefinition)) None])).2
    = [CallLock "wf1" logicAppResourceName; CallGet "rg1" "wf1";
       CallCreateOrUpdate "rg1" "wf1"
         (request "westus" (IMap editedDefinition) {["p1" := stringParameter "v1"]} ∅)]
      ++ rest
    /\ Forall (fun c => is_CreateOrUpdate c = false) rest.
Proof.
  destruct (Update_preserves_definition (client := scripted) testParse testNormalize
              testExpandTags testFlattenTags testNotFound testData testResourceID
              (start [ReplyWorkflow (remoteWorkflow (IMap editedDefinition)) None;
                      ReplyWorkflow (remoteWorkflow (IMap editedDefinition)) None;
                      ReplyWorkflow (remoteWorkflow (IMap editedDefinition)) None])
              (remoteWorkflow (IMap editedDefinition))
              [ReplyWorkflow (remoteWorkflow (IMap editedDefinition)) None;
               ReplyWorkflow (remoteWorkflow (IMap editedDefinition)) None]
              (remoteProperties (IMap editedDefinition))
              {["p1" := "v1"]}
              eq_refl (start_free _ _) eq_refl eq_refl testData_parameters)
    as (rest & Hcalls & Hrest & _).
  exists rest. split; [exact Hcalls | exact Hrest].
Defined.

(** C1 as it was stated fails: a fetch that succeeds, on a workflow that is
    there but comes back without its properties, makes Update return the
    error of the guard, and no create-or-update is among its calls. *)
Lemma Update_without_properties_sends_nothing :
  client_Get "rg1" "wf1" [ReplyWorkflow bareWorkflow None] = ((bareWorkflow, None), [])
  /\ (run (testUpdate testData) (start [ReplyWorkflow bareWorkflow None])).1
     = Returned (testData,
                 Some (Errorf "[ERROR] Error parsing Logic App Workflow - `WorkflowProperties` is nil" []))
  /\ ~ exists (rg n : string) (sent : logic.Workflow),
         CallCreateOrUpdate rg n sent
         ∈ calls (run (testUpdate testData) (start [ReplyWorkflow bareWorkflow None])).2.
Proof.
  split; [reflexivity|]. split; [vm_compute; reflexivity|].
  assert (Hcalls : calls (run (testUpdate testData)
                              (start [ReplyWorkflow bareWorkflow None])).2
                   = [CallLock "wf1" logicAppResourceName; CallGet "rg1" "wf1";
                      CallUnlock "wf1" logicAppResourceName])
    by (vm_compute; reflexivity).
  rewrite Hcalls. intros (rg & n & sent & Hin).
  repeat (apply elem_of_cons in Hin as [Hin|Hin]; [discriminate|]).
  by apply elem_of_nil in Hin.
Qed.

Lemma Delete_outcome_witness :
  (exists s' : state (list reply),
     run (testDelete testData) (start [ReplyResponse (status 404) (Some notFoundError)])
     = (Returned (testData, None), s'))
  /\ exists (e : error) (s' : state (list reply)),
       run (testDelete testData) (start [ReplyResponse (status 500) (Some internalError)])
       = (Returned (testData, Some e), s')
       /\ is_RemoteError e = true.
Proof.
  split.
  - eexists.
    apply (proj1 (proj2 (Delete_outcome (client := scripted) testParse testNotFound
                           testData testResourceID
                           (start [ReplyResponse (status 404) (Some notFoundError)])
                           (status 404) (Some notFoundError) []
                           eq_refl (start_free _ _) eq_refl)));
      [discriminate | reflexivity].
  - destruct (proj2 (proj2 (Delete_outcome (client := scripted) testParse testNotFound
                              testData testResourceID
                              (start [ReplyResponse (status 500) (Some internalError)])
                              (status 500) (Some internalError) []
                              eq_refl (start_free _ _) eq_refl))
                internalError eq_refl eq_refl) as (e & Hrun & Hremote & _).
    exists e. eexists. split; [exact Hrun | exact Hremote].
Defined.

Lemma Create_outcome_witness :
  (exists (e : error) (s' : state (list reply)),
     run (testCreate (configured testConfig))
         (start [ReplyWorkflow zeroWorkflow (Some internalError); notFound])
     = (Returned (configured testConfig, Some e), s')
     /\ is_RemoteError e = true)
  /\ (exists (e : error) (s' : state (list reply)),
        run (testCreate (configured testConfig))
            (start [ReplyWorkflow zeroWorkflow None; ReplyWorkflow zeroWorkflow None])
        = (Returned (configured testConfig, Some e), s')
        /\ is_RemoteError e = true)
  /\ exists s' : state (list reply),
       run (testCreate (configured testConfig))
           (start [ReplyWorkflow zeroWorkflow None; ReplyWorkflow (remoteWorkflow INil) None;
                   notFound])
       = run (testRead (SetId testID (configured testConfig))) s'.
Proof.
  split; [|split].
  - destruct (proj1 (Create_outcome (client := scripted) testParse testNormalize
                       testExpandTags testFlattenTags testNotFound
                       (configured testConfig) {["p1" := "v1"]}
                       (start [ReplyWorkflow zeroWorkflow (Some internalError); notFound])
                       zeroWorkflow (failedWorkflow 404)
                       (Some internalError) (Some notFoundError) [notFound] []
                       eq_refl eq_refl eq_refl)
                internalError eq_refl) as (e & Hrun & Hremote & _).
    exists e. eexists. split; [exact Hrun | exact Hremote].
  - destruct (proj1 (proj2 (proj2
                (Create_outcome (client := scripted) testParse testNormalize
                   testExpandTags testFlattenTags testNotFound
                   (configured testConfig) {["p1" := "v1"]}
                   (start [ReplyWorkflow zeroWorkflow None; ReplyWorkflow zeroWorkflow None])
                   zeroWorkflow zeroWorkflow None None
                   [ReplyWorkflow zeroWorkflow None] []
                   eq_refl eq_refl eq_refl)))
                eq_refl eq_refl eq_refl) as (e & Hrun & Hremote & _).
    exists e. eexists. split; [exact Hrun | exact Hremote].
  - eexists.
    apply (proj1 (proj2 (proj2 (proj2
             (Create_outcome (client := scripted) testParse testNormalize
                testExpandTags testFlattenTags testNotFound
                (configured testConfig) {["p1" := "v1"]}
                (start [ReplyWorkflow zeroWorkflow None;
                        ReplyWorkflow (remoteWorkflow INil) None; notFound])
                zeroWorkflow (remoteWorkflow INil) None None
                [ReplyWorkflow (remoteWorkflow INil) None; notFound] [notFound]
                eq_refl eq_refl eq_refl))))
             testID eq_refl eq_refl eq_refl).
Defined.

(** C3 as it was stated fails: the create-or-update call answers without
    an error, the fetch after it answers without an error and with an
    identifier, and Create still returns a RemoteError: the one of the Read
    it hands over to, whose own fetch is answered with a 500. *)
Lemma Create_RemoteError_from_Read :
  (forall sent : logic.Workflow,
     client_CreateOrUpdate "rg1" "wf1" sent
       [ReplyWorkflow zeroWorkflow None; ReplyWorkflow (remoteWorkflow INil) None;
        serverError]
     = ((zeroWorkflow, None), [ReplyWorkflow (remoteWorkflow INil) None; serverError]))
  /\ client_Get "rg1" "wf1" [ReplyWorkflow (remoteWorkflow INil) None; serverError]
     = ((remoteWorkflow INil, None), [serverError])
  /\ logic.ID (remoteWorkflow INil) = Some testID
  /\ exists e : error,
       (run (testCreate (configured testConfig))
            (start [ReplyWorkflow zeroWorkflow None;
                    ReplyWorkflow (remoteWorkflow INil) None; serverError])).1
       = Returned (SetId testID (configured testConfig), Some e)
       /\ is_RemoteError e = true.
Proof.
  split; [reflexivity|]. split; [reflexivity|]. split; [reflexivity|].
  eexists. split; [vm_compute; reflexivity | reflexivity].
Qed.


(** * Further properties *)

(** ** The parameter mappings on any input *)

Lemma flatten_fold (input : gmap string (option logic.WorkflowParameter)) :
  (flattenLogicAppWorkflowParameters input = None <->
   exists (k : string) (p : logic.WorkflowParameter),
     input !! k = Some (Some p) /\ assert_string (logic.Value p) = None)
  /\ forall out : gmap string iface,
       flattenLogicAppWorkflowParameters input = Some out ->
       forall k : string, out !! k = input !! k ≫= fun p => logic.Value <$> p.
Proof.
  unfold flattenLogicAppWorkflowParameters.
  apply (map_fold_weak_ind
           (fun r (m : gmap string (option logic.WorkflowParameter)) =>
              (r = None <->
               exists (k : string) (p : logic.WorkflowParameter),
                 m !! k = Some (Some p) /\ assert_string (logic.Value p) = None)
              /\ forall out : gmap string iface,
                   r = Some out ->
                   forall k : string, out !! k = m !! k ≫= fun p => logic.Value <$> p)).
  - split.
    + split; [discriminate|]. intros (k & p & Hk & _). by rewrite lookup_empty in Hk.
    + intros out [= <-] k. by rewrite !lookup_empty.
  - intros i x m r Hi [Hnone Hsome]. destruct r as [acc|]; simpl.
    + assert (Hgood : forall (k : string) (p : logic.WorkflowParameter),
                m !! k = Some (Some p) -> assert_string (logic.Value p) <> None).
      { intros k p Hk Hp. enough (Some acc = None) by done. apply Hnone. eauto. }
      destruct x as [p|]; simpl.
      * destruct (logic.Value p) as [| | |v| | |] eqn:Hv; simpl;
          try (split; [split; [intros _; exists i, p; rewrite lookup_insert_eq, Hv; done | done]
                      | by intros out [=]]).
        split.
        -- split; [done|]. intros (k & q & Hk & Hq).
           destruct (decide (i = k)) as [<-|Hne].
           ++ rewrite lookup_insert_eq in Hk. injection Hk as <-. by rewrite Hv in Hq.
           ++ rewrite lookup_insert_ne in Hk by done. by destruct (Hgood k q).
        -- intros out [= <-] k. destruct (decide (i = k)) as [<-|Hne].
           ++ rewrite !lookup_insert_eq. simpl. by rewrite Hv.
           ++ rewrite !lookup_insert_ne by done. by apply Hsome.
      * split.
        -- split; [done|]. intros (k & q & Hk & Hq).
           destruct (decide (i = k)) as [<-|Hne].
           ++ rewrite lookup_insert_eq in Hk. discriminate.
           ++ rewrite lookup_insert_ne in Hk by done. by destruct (Hgood k q).
        -- intros out [= <-] k. destruct (decide (i = k)) as [<-|Hne].
           ++ rewrite lookup_insert_eq. simpl. rewrite (Hsome acc eq_refl i), Hi. done.
           ++ rewrite lookup_insert_ne by done. by apply Hsome.
    + split; [|by intros out [=]]. split; [|done]. intros _.
      destruct (proj1 Hnone eq_refl) as (k & p & Hk & Hp). exists k, p.
      split; [|done]. rewrite lookup_insert_ne; [done|]. intros ->. by rewrite Hi in Hk.
Qed.

Lemma expand_fold (d : ResourceData) :
  (expandLogicAppWorkflowParameters d = None <->
   exists (k : string) (v : iface),
     parameters d !! k = Some v /\ assert_string v = None)
  /\ forall out : gmap string (option logic.WorkflowParameter),
       expandLogicAppWorkflowParameters d = Some out ->
       forall k : string,
         out !! k = parameters d !! k ≫= fun v => stringParameter <$> assert_string v.
Proof.
  unfold expandLogicAppWorkflowParameters. simpl.
  apply (map_fold_weak_ind
           (fun r (m : gmap string iface) =>
              (r = None <->
               exists (k : string) (v : iface), m !! k = Some v /\ assert_string v = None)
              /\ forall out : gmap string (option logic.WorkflowParameter),
                   r = Some out ->
                   forall k : string,
                     out !! k = m !! k ≫= fun v => stringParameter <$> assert_string v)).
  - split.
    + split; [discriminate|]. intros (k & p & Hk & _). by rewrite lookup_empty in Hk.
    + intros out [= <-] k. by rewrite !lookup_empty.
  - intros i x m r Hi [Hnone Hsome]. destruct r as [acc|]; simpl.
    + assert (Hgood : forall (k : string) (v : iface),
                m !! k = Some v -> assert_string v <> None).
      { intros k p Hk Hp. enough (Some acc = None) by done. apply Hnone. eauto. }
      destruct (assert_string x) as [s|] eqn:Hx; simpl.
      * split.
        -- split; [done|]. intros (k & q & Hk & Hq).
           destruct (decide (i = k)) as [<-|Hne].
           ++ rewrite lookup_insert_eq in Hk. injection Hk as <-. by rewrite Hx in Hq.
           ++ rewrite lookup_insert_ne in Hk by done. by destruct (Hgood k q).
        -- intros out [= <-] k. destruct (decide (i = k)) as [<-|Hne].
           ++ rewrite !lookup_insert_eq. simpl. by rewrite Hx.
           ++ rewrite !lookup_insert_ne by done. by apply Hsome.
      * split; [|by intros out [=]]. split; [|done]. intros _. exists i, x.
        by rewrite lookup_insert_eq.
    + split; [|by intros out [=]]. split; [|done]. intros _.
      destruct (proj1 Hnone eq_refl) as (k & p & Hk & Hp). exists k, p.
      split; [|done]. rewrite lookup_insert_ne; [done|]. intros ->. by rewrite Hi in Hk.
Qed.

(** X1: flatten panics exactly when some entry that is not nil holds a
    value that is not a string. *)
Theorem flatten_panics_iff (input : gmap string (option logic.WorkflowParameter)) :
  flattenLogicAppWorkflowParameters input = None <->
  exists (k : string) (p : logic.WorkflowParameter),
    input !! k = Some (Some p) /\ assert_string (logic.Value p) = None.
Proof. apply (flatten_fold input). Qed.

(** X2: when flatten returns, its result has one entry for each entry of
    the input that is not nil, under the same key and holding its value;
    nil entries are dropped and the parameter type is forgotten. *)
Theorem flatten_keeps_non_nil (input : gmap string (option logic.WorkflowParameter))
    (out : gmap string iface) :
  flattenLogicAppWorkflowParameters input = Some out ->
  forall k : string, out !! k = input !! k ≫= fun p => logic.Value <$> p.
Proof. apply (flatten_fold input). Qed.

(** X4: when expand returns, its result has the keys of the configured
    parameters and no other, and under each key a parameter that is not
    nil, of type String, holding the configured string. *)
Theorem expand_result (d : ResourceData)
    (out : gmap string (option logic.WorkflowParameter)) :
  expandLogicAppWorkflowParameters d = Some out ->
  forall k : string,
    out !! k = parameters d !! k ≫= fun v => stringParameter <$> assert_string v.
Proof. apply (expand_fold d). Qed.

(** ** The handlers on further paths *)

Section Further.
Variable parseAzureResourceID : string -> result ResourceID.
Variable azureRMNormalizeLocation : string -> string.
Variable expandTags : gmap string iface -> gmap string (option string).
Variable flattenTags : gmap string (option string) -> gmap string iface.
Variable ResponseWasNotFound : autorest.Response -> bool.
Context {W : Type} {client : WorkflowsClient W}.

Abbreviation Populate := (populate azureRMNormalizeLocation flattenTags).
Abbreviation Read :=
  (resourceArmLogicAppWorkflowRead parseAzureResourceID azureRMNormalizeLocation
     flattenTags ResponseWasNotFound).
Abbreviation Create :=
  (resourceArmLogicAppWorkflowCreate parseAzureResourceID azureRMNormalizeLocation
     expandTags flattenTags ResponseWasNotFound).
Abbreviation UpdateLocked :=
  (updateLocked parseAzureResourceID azureRMNormalizeLocation
     expandTags flattenTags ResponseWasNotFound).
Abbreviation Update :=
  (resourceArmLogicAppWorkflowUpdate parseAzureResourceID azureRMNormalizeLocation
     expandTags flattenTags ResponseWasNotFound).
Abbreviation DeleteLocked := (deleteLocked ResponseWasNotFound).
Abbreviation Delete :=
  (resourceArmLogicAppWorkflowDelete parseAzureResourceID ResponseWasNotFound).

(** What Read leaves in the resource data after a fetch that succeeded, on
    an object whose parameters flatten to [ps] and whose definition is
    [definition]. *)
Lemma populate_fields (rg : string) (resp : logic.Workflow) (d : ResourceData)
    (props : logic.WorkflowProperties) (ps : gmap string iface) :
  logic.Properties resp = Some props ->
  flattenLogicAppWorkflowParameters (logic.Parameters props) = Some ps ->
  (forall v : gmap string iface,
     logic.Definition_ props = IMap v ->
     exists schema version : string,
       v !! "$schema" = Some (IString schema)
       /\ v !! "contentVersion" = Some (IString version)) ->
  exists d' : ResourceData,
    Populate rg resp d = Ret (d', None)
    /\ Id d' = Id d
    /\ name d' = default empty (logic.Name resp)
    /\ resource_group_name d' = rg
    /\ location d' = match logic.Location resp with
                     | Some l => azureRMNormalizeLocation l
                     | None => location d
                     end
    /\ parameters d' = ps
    /\ access_endpoint d' = default empty (logic.AccessEndpoint props)
    /\ tags d' = flattenTags (logic.Tags resp)
    /\ match logic.Definition_ props with
       | IMap v => v !! "$schema" = Some (IString (workflow_schema d'))
                   /\ v !! "contentVersion" = Some (IString (workflow_version d'))
       | _ => workflow_schema d' = workflow_schema d
              /\ workflow_version d' = workflow_version d
       end.
Proof.
  intros Hprops Hps Hdef. unfold populate. rewrite Hprops, Hps. simpl.
  destruct (logic.Definition_ props) as [| | | | |v|] eqn:Hv; simpl;
    try (eexists; split; [reflexivity|]; by destruct (logic.Location resp)).
  destruct (Hdef v eq_refl) as (schema & version & Hs & Hc).
  unfold index. rewrite Hs, Hc. simpl.
  eexists. split; [reflexivity|]. by destruct (logic.Location resp).
Qed.

(** X5: when the fetch of Read succeeds on an object with properties, with
    parameters that flatten and a definition that is a map with the two
    string fields, Read returns no error and leaves the id as it was; the
    name, access endpoint, parameters, schema, version and tags are those
    of the object, the resource group is the one parsed from the id, and
    the location is the normalized remote location, or the old one when
    the object has none. *)
Theorem Read_populates (d : ResourceData) (id : ResourceID) (s : state W)
    (resp : logic.Workflow) (w : W) (props : logic.WorkflowProperties)
    (ps v : gmap string iface) (schema version : string) :
  parseAzureResourceID (Id d) = Ok id ->
  let rg := ResourceGroup id in
  let n := index_string (Path id) "workflows" in
  client_Get rg n (remote s) = ((resp, None), w) ->
  logic.Properties resp = Some props ->
  flattenLogicAppWorkflowParameters (logic.Parameters props) = Some ps ->
  logic.Definition_ props = IMap v ->
  v !! "$schema" = Some (IString schema) ->
  v !! "contentVersion" = Some (IString version) ->
  exists d' : ResourceData,
    run (Read d) s
    = (Returned (d', None),
       {| remote := w; held := held s; calls := calls s ++ [CallGet rg n] |})
    /\ Id d' = Id d
    /\ name d' = default empty (logic.Name resp)
    /\ resource_group_name d' = rg
    /\ location d' = match logic.Location resp with
                     | Some l => azureRMNormalizeLocation l
                     | None => location d
                     end
    /\ parameters d' = ps
    /\ access_endpoint d' = default empty (logic.AccessEndpoint props)
    /\ workflow_schema d' = schema
    /\ workflow_version d' = version
    /\ tags d' = flattenTags (logic.Tags resp).
Proof.
  intros Hid rg n Hget Hprops Hps Hdef Hs Hc.
  rewrite (Read_run parseAzureResourceID azureRMNormalizeLocation flattenTags ResponseWasNotFound d id s Hid). fold rg n. rewrite Hget. simpl.
  destruct (populate_fields rg resp d props ps Hprops Hps)
    as (d' & -> & HId & Hname & Hrg & Hloc & Hpar & Hacc & Htags & Hd).
  { intros v' Hv'. rewrite Hdef in Hv'. injection Hv' as <-. eauto. }
  rewrite Hdef in Hd. destruct Hd as [Hs' Hc'].
  rewrite Hs in Hs'. rewrite Hc in Hc'. injection Hs' as Hs'. injection Hc' as Hc'.
  exists d'. unfold after_Get. rewrite Hget. simpl. by repeat split.
Qed.

(** X6: when the fetch of Read succeeds on an object without properties,
    or on one with properties whose parameters flatten (every value that
    is not nil is a string) and whose definition is not a
    [map[string]interface{}] (nil, or the pointer to a map that Create
    builds), Read returns no error and leaves schema and version as they
    were; without properties it leaves parameters and access endpoint as
    they were too. *)
Theorem Read_keeps_schema (d : ResourceData) (id : ResourceID) (s : state W)
    (resp : logic.Workflow) (w : W) :
  parseAzureResourceID (Id d) = Ok id ->
  let rg := ResourceGroup id in
  let n := index_string (Path id) "workflows" in
  client_Get rg n (remote s) = ((resp, None), w) ->
  match logic.Properties resp with
  | None => True
  | Some props =>
    flattenLogicAppWorkflowParameters (logic.Parameters props) <> None
    /\ forall v : gmap string iface, logic.Definition_ props <> IMap v
  end ->
  exists d' : ResourceData,
    run (Read d) s
    = (Returned (d', None),
       {| remote := w; held := held s; calls := calls s ++ [CallGet rg n] |})
    /\ workflow_schema d' = workflow_schema d
    /\ workflow_version d' = workflow_version d
    /\ (logic.Properties resp = None ->
        parameters d' = parameters d /\ access_endpoint d' = access_endpoint d).
Proof.
  intros Hid rg n Hget Hshape.
  rewrite (Read_run parseAzureResourceID azureRMNormalizeLocation flattenTags ResponseWasNotFound d id s Hid). fold rg n. rewrite Hget. simpl.
  unfold after_Get. rewrite Hget. simpl.
  destruct (logic.Properties resp) as [props|] eqn:Hprops.
  - destruct Hshape as [Hflat Hdef].
    destruct (flattenLogicAppWorkflowParameters (logic.Parameters props))
      as [ps|] eqn:Hps; [|done].
    destruct (populate_fields rg resp d props ps Hprops Hps)
      as (d' & -> & _ & _ & _ & _ & _ & _ & _ & Hd).
    { intros v Hv. by destruct (Hdef v). }
    exists d'. split; [reflexivity|].
    destruct (logic.Definition_ props) as [| | | | |v|] eqn:Hv;
      try (destruct Hd; by repeat split).
    by destruct (Hdef v).
  - unfold populate. rewrite Hprops. simpl. eexists. split; [reflexivity|].
    by destruct (logic.Location resp).
Qed.

(** X7: Read panics, after its one fetch, when the fetched object has a
    parameter that is not nil and whose value is not a string. *)
Theorem Read_panics_on_parameter (d : ResourceData) (id : ResourceID) (s : state W)
    (resp : logic.Workflow) (w : W) (props : logic.WorkflowProperties)
    (k : string) (p : logic.WorkflowParameter) :
  parseAzureResourceID (Id d) = Ok id ->
  let rg := ResourceGroup id in
  let n := index_string (Path id) "workflows" in
  client_Get rg n (remote s) = ((resp, None), w) ->
  logic.Properties resp = Some props ->
  logic.Parameters props !! k = Some (Some p) ->
  assert_string (logic.Value p) = None ->
  run (Read d) s
  = (Panicked, {| remote := w; held := held s; calls := calls s ++ [CallGet rg n] |}).
Proof.
  intros Hid rg n Hget Hprops Hk Hp.
  rewrite (Read_run parseAzureResourceID azureRMNormalizeLocation flattenTags ResponseWasNotFound d id s Hid). fold rg n. rewrite Hget. simpl.
  unfold after_Get. rewrite Hget. simpl.
  assert (Hflat : flattenLogicAppWorkflowParameters (logic.Parameters props) = None).
  { apply (flatten_fold (logic.Parameters props)). eauto. }
  unfold populate. rewrite Hprops, Hflat. reflexivity.
Qed.

(** X8: when the stored id does not parse, Read, Update and Delete return
    the error of the parser with the resource data as it was and make no
    call at all: Update and Delete do not take the lock. *)
Theorem invalid_id_no_call (d : ResourceData) (e : error) (s : state W) :
  parseAzureResourceID (Id d) = Err e ->
  run (Read d) s = (Returned (d, Some e), s)
  /\ run (Update d) s = (Returned (d, Some e), s)
  /\ run (Delete d) s = (Returned (d, Some e), s).
Proof.
  intros Hid.
  unfold resourceArmLogicAppWorkflowRead, resourceArmLogicAppWorkflowUpdate,
    resourceArmLogicAppWorkflowDelete.
  rewrite Hid. by repeat split.
Qed.

(** ** Calls and the lock *)

Lemma perform_remote {X : Type} (e : event X) (s : state W) :
  is_remote (record_of e) = true ->
  exists (x : X) (s' : state W),
    perform e s = Some (x, s')
    /\ held s' = held s /\ calls s' = calls s ++ [record_of e].
Proof.
  destruct e; simpl; try discriminate; intros _.
  - destruct (client_CreateOrUpdate _ _ _ _) as [r w]. by eexists _, _.
  - destruct (client_Get _ _ _) as [r w]. by eexists _, _.
  - destruct (client_Delete _ _ _) as [r w]. by eexists _, _.
Qed.

Lemma run_remote_only {A : Type} (p : prog A) (s : state W) :
  remote_only p ->
  exists l : list call_record,
    calls (run p s).2 = calls s ++ l
    /\ Forall (fun c => is_remote c = true) l
    /\ held (run p s).2 = held s
    /\ (run p s).1 <> Blocked.
Proof.
  revert s. induction p as [a| |X e k IH]; intros s Hp.
  - exists []. simpl. by rewrite app_nil_r.
  - exists []. simpl. by rewrite app_nil_r.
  - destruct Hp as [He Hk]. simpl.
    destruct (perform_remote e s He) as (x & s' & -> & Hheld & Hcalls).
    destruct (IH x s' (Hk x)) as (l & Hl & Hrem & Hh & Hnb).
    exists (record_of e :: l). rewrite Hl, Hcalls, Hh, Hheld, <- app_assoc.
    repeat split; [by constructor | done].
Qed.

Lemma remote_only_Create (d : ResourceData) : remote_only (Create d).
Proof.
  unfold resourceArmLogicAppWorkflowCreate.
  apply remote_only_bind; [by destruct (expandLogicAppWorkflowParameters d)|].
  intros ps. split; [reflexivity|]. intros [r1 [e1|]]; [done|].
  split; [reflexivity|]. intros [read [e2|]]; [done|]. simpl.
  destruct (logic.ID read) as [i|]; [|done].
  apply (remote_only_Read parseAzureResourceID azureRMNormalizeLocation flattenTags
           ResponseWasNotFound).
Qed.

(** X9: Create and Read make remote calls only: whatever the remote
    answers they neither take nor give back a lock, and they do not wait
    for one that is held. *)
Theorem Create_Read_never_lock (d : ResourceData) (s : state W) :
  (exists l : list call_record,
     calls (run (Create d) s).2 = calls s ++ l
     /\ Forall (fun c => is_remote c = true) l
     /\ held (run (Create d) s).2 = held s
     /\ (run (Create d) s).1 <> Blocked)
  /\
  (exists l : list call_record,
     calls (run (Read d) s).2 = calls s ++ l
     /\ Forall (fun c => is_remote c = true) l
     /\ held (run (Read d) s).2 = held s
     /\ (run (Read d) s).1 <> Blocked).
Proof.
  split; apply run_remote_only.
  - apply remote_only_Create.
  - apply (remote_only_Read parseAzureResourceID azureRMNormalizeLocation flattenTags
             ResponseWasNotFound).
Qed.

Lemma run_bracket {A : Type} (n t : string) (p : prog A) (s : state W) :
  remote_only p ->
  (n, t) ∉ held s ->
  exists l : list call_record,
    calls (run (call (EvLock n t);; defer (call (EvUnlock n t)) p) s).2
    = calls s ++ CallLock n t :: l ++ [CallUnlock n t]
    /\ Forall (fun c => is_remote c = true) l
    /\ held (run (call (EvLock n t);; defer (call (EvUnlock n t)) p) s).2 = held s
    /\ (run (call (EvLock n t);; defer (call (EvUnlock n t)) p) s).1 <> Blocked.
Proof.
  intros Hp Hfree. rewrite (run_locked n t p s Hfree).
  destruct (run_remote_only p (locked n t s) Hp) as (l & Hl & Hrem & Hheld & Hnb).
  rewrite (and_finally_unlock _ n t Hnb). simpl. rewrite Hl, Hheld. simpl.
  exists l. rewrite (unlock_after_lock _ _ Hfree), <- !app_assoc. by repeat split.
Qed.

(** X10: with an id that parses and the lock free, the calls of Update,
    and those of Delete, are the lock, then remote calls only, then the
    unlock, whatever the remote answers and also when the handler panics;
    the lock registry ends as it started. *)
Theorem Update_Delete_bracket (d : ResourceData) (id : ResourceID) (s : state W) :
  parseAzureResourceID (Id d) = Ok id ->
  let n := index_string (Path id) "workflows" in
  (n, logicAppResourceName) ∉ held s ->
  (exists l : list call_record,
     calls (run (Update d) s).2
     = calls s ++ CallLock n logicAppResourceName :: l
               ++ [CallUnlock n logicAppResourceName]
     /\ Forall (fun c => is_remote c = true) l
     /\ held (run (Update d) s).2 = held s
     /\ (run (Update d) s).1 <> Blocked)
  /\
  (exists l : list call_record,
     calls (run (Delete d) s).2
     = calls s ++ CallLock n logicAppResourceName :: l
               ++ [CallUnlock n logicAppResourceName]
     /\ Forall (fun c => is_remote c = true) l
     /\ held (run (Delete d) s).2 = held s
     /\ (run (Delete d) s).1 <> Blocked).
Proof.
  intros Hid n Hfree.
  unfold resourceArmLogicAppWorkflowUpdate, resourceArmLogicAppWorkflowDelete.
  rewrite Hid. fold n. split; apply run_bracket; try done.
  - apply remote_only_updateLocked.
  - apply remote_only_deleteLocked.
Qed.

(** ** The second half of Update *)

(** X13: after a fetch that returned a workflow, Update returns a
    RemoteError-shaped error with the resource data as it was when its
    create-or-update errors; when that call succeeds, what Update returns
    is what Read returns, run on the same resource data after the three
    calls, and the unlock follows it. *)
Theorem Update_outcome (d : ResourceData) (id : ResourceID) (s : state W)
    (read r : logic.Workflow) (w w' : W) (props : logic.WorkflowProperties)
    (m : gmap string string) (err : option error) :
  parseAzureResourceID (Id d) = Ok id ->
  let rg := ResourceGroup id in
  let n := index_string (Path id) "workflows" in
  (n, logicAppResourceName) ∉ held s ->
  client_Get rg n (remote s) = ((read, None), w) ->
  logic.Properties read = Some props ->
  parameters d = IString <$> m ->
  let sent := request (azureRMNormalizeLocation (location d))
                      (logic.Definition_ props)
                      (stringParameter <$> m)
                      (expandTags (tags d)) in
  client_CreateOrUpdate rg n sent w = ((r, err), w') ->
  let sent_calls := [CallLock n logicAppResourceName; CallGet rg n;
                     CallCreateOrUpdate rg n sent] in
  (forall cause : error, err = Some cause ->
     run (Update d) s
     = (Returned (d, Some (Errorf "Error updating Logic App Workspace %q (Resource Group %q): %+v"
                                  [ArgQ n; ArgQ rg; ArgV cause])),
        {| remote := w'; held := held s;
           calls := calls s ++ sent_calls ++ [CallUnlock n logicAppResourceName] |}))
  /\
  (err = None ->
   let s3 := {| remote := w'; held := held s ∪ {[(n, logicAppResourceName)]};
                calls := calls s ++ sent_calls |} in
   run (Update d) s
   = ((run (Read d) s3).1, unlocked n logicAppResourceName (run (Read d) s3).2)
   /\ held (unlocked n logicAppResourceName (run (Read d) s3).2) = held s).
Proof.
  intros Hid rg n Hfree Hget Hprops Hm sent Hcou sent_calls.
  rewrite (Update_run parseAzureResourceID azureRMNormalizeLocation expandTags
             flattenTags ResponseWasNotFound d id s Hid Hfree). fold rg n.
  unfold updateLocked. rewrite run_bind, run_call. simpl perform. rewrite Hget. simpl.
  rewrite Hprops, run_bind, run_assert, (expand_strings d m Hm). simpl and_then.
  fold (request (azureRMNormalizeLocation (location d)) (logic.Definition_ props)
          (stringParameter <$> m) (expandTags (tags d))). fold sent.
  rewrite Hcou. simpl. split.
  - intros cause ->. simpl. unfold unlocked. simpl.
    rewrite (unlock_after_lock _ _ Hfree). unfold sent_calls. by rewrite <- !app_assoc.
  - intros ->. unfold sent_calls. rewrite <- !app_assoc. simpl.
    match goal with |- context [run (Read d) ?s0] => set (s3 := s0) end.
    destruct (Read_state parseAzureResourceID azureRMNormalizeLocation flattenTags
                ResponseWasNotFound d id s3 Hid) as [Hst Hnb].
    rewrite (and_finally_unlock _ n logicAppResourceName Hnb). split; [done|].
    rewrite Hst. simpl. by apply unlock_after_lock.
Qed.

(** ** Create, then the Read that ends it *)

(** X14: when the create-or-update and the fetch of Create succeed, the
    fetched id parses, and the fetch of the Read that ends Create returns
    the parameters Create sent and the definition it sent as a plain map,
    Create returns no error, the id is the fetched one, and parameters,
    schema and version are those of the configuration. *)
Theorem Create_round_trip (d : ResourceData) (m : gmap string string) (s : state W)
    (r1 read resp : logic.Workflow) (w1 w2 w3 : W) (i : string) (id : ResourceID)
    (props : logic.WorkflowProperties) :
  parameters d = IString <$> m ->
  let rg := resource_group_name d in
  let n := name d in
  let sent := request (azureRMNormalizeLocation (location d))
                      (IMapPtr (newDefinition (workflow_schema d) (workflow_version d)))
                      (stringParameter <$> m)
                      (expandTags (tags d)) in
  client_CreateOrUpdate rg n sent (remote s) = ((r1, None), w1) ->
  client_Get rg n w1 = ((read, None), w2) ->
  logic.ID read = Some i ->
  parseAzureResourceID i = Ok id ->
  client_Get (ResourceGroup id) (index_string (Path id) "workflows") w2
    = ((resp, None), w3) ->
  logic.Properties resp = Some props ->
  logic.Parameters props = stringParameter <$> m ->
  logic.Definition_ props
    = IMap (newDefinition (workflow_schema d) (workflow_version d)) ->
  exists d' : ResourceData,
    (run (Create d) s).1 = Returned (d', None)
    /\ Id d' = i
    /\ parameters d' = parameters d
    /\ workflow_schema d' = workflow_schema d
    /\ workflow_version d' = workflow_version d
    /\ resource_group_name d' = ResourceGroup id
    /\ tags d' = flattenTags (logic.Tags resp).
Proof.
  intros Hm rg n sent Hcou Hget Hi Hid Hget' Hprops Hpar Hdef.
  rewrite (Create_run parseAzureResourceID azureRMNormalizeLocation expandTags
             flattenTags ResponseWasNotFound d m s Hm).
  fold rg n sent. rewrite Hcou, Hget, Hi.
  rewrite (Read_run parseAzureResourceID azureRMNormalizeLocation flattenTags
             ResponseWasNotFound (SetId i d) id _ Hid). simpl. rewrite Hget'. simpl.
  destruct (populate_fields (ResourceGroup id) resp (SetId i d) props (IString <$> m)
              Hprops)
    as (d' & -> & HId & _ & Hrg & _ & Hps & _ & Htags & Hd).
  { rewrite Hpar. apply flatten_strings. }
  { intros v Hv. rewrite Hdef in Hv. injection Hv as <-. by eexists _, _. }
  rewrite Hdef in Hd. destruct Hd as [Hs Hc].
  exists d'. split; [reflexivity|]. rewrite Hm.
  injection Hs as Hs. injection Hc as Hc. by repeat split.
Qed.

(** ** Pools of any size *)

Section Progress.
Context {A : Type}.
Variables n t : string.

Lemma step_ready (holder holder' : option nat) (c c' : state W * list (prog A))
    (i : nat) (l : nat * call_record) :
  pool_inv n t holder c ->
  pool_ready n t holder c ->
  step i c = Some (l, c') ->
  critical (n, t) holder [l] = Some holder' ->
  pool_ready n t holder' c'.
Proof.
  destruct c as [s ts]. intros [Hph Hheld] [Hfree Hin]. unfold step. simpl.
  destruct (ts !! i) as [[a| |X e k]|] eqn:Hi; try discriminate.
  destruct (perform e s) as [[x s']|] eqn:Hperf; [|discriminate].
  intros [= <- <-]. specialize (Hph i _ Hi) as Hp. unfold phase in Hp.
  simpl in *. assert (Hlen : i < length ts) by (by eapply lookup_lt_Some).
  assert (Hthere : is_Some (<[i := k x]> ts !! i)).
  { rewrite list_lookup_insert_eq by done. by eexists. }
  destruct (decide (holder = Some i)) as [->|Hh].
  - destruct e as [rg nm pr|rg nm|rg nm|n' t'|n' t']; simpl in *; try done.
    + intros [= <-]. split; [done|]. by intros j [= <-].
    + intros [= <-]. split; [done|]. by intros j [= <-].
    + intros [= <-]. split; [done|]. by intros j [= <-].
    + destruct Hp as (-> & -> & _). rewrite decide_True by done. intros [= <-].
      split; [|done]. intros _. injection Hperf as <- <-. simpl.
      unfold azureRMUnlockByName. rewrite elem_of_difference, elem_of_singleton.
      by intros [_ Hne].
  - destruct e as [rg nm pr|rg nm|rg nm|n' t'|n' t']; simpl in *; try done.
    destruct Hp as (-> & -> & _). rewrite decide_True by done.
    destruct holder as [j|]; [discriminate|]. intros [= <-].
    split; [done|]. by intros j [= <-].
Qed.

Lemma schedule_ready (sched : list nat) (holder : option nat)
    (c c' : state W * list (prog A)) (tr : list (nat * call_record)) :
  pool_inv n t holder c ->
  pool_ready n t holder c ->
  schedule sched c = Some (tr, c') ->
  exists holder', pool_inv n t holder' c' /\ pool_ready n t holder' c'.
Proof.
  revert holder c tr. induction sched as [|i sched IH]; intros holder c tr Hinv Hready; simpl.
  - intros [= <- <-]. by exists holder.
  - destruct (step i c) as [[l c1]|] eqn:Hstep; [|discriminate].
    destruct (schedule sched c1) as [[tr1 c2]|] eqn:Hrest; [|discriminate].
    intros [= <- <-].
    destruct (step_inv n t holder c c1 i l Hinv Hstep) as (h1 & Hl & Hinv1).
    apply (IH h1 c1 tr1 Hinv1); [|done].
    by apply (step_ready holder h1 c c1 i l).
Qed.

Lemma unfinished_or_done (ts : list (prog A)) :
  Forall finished ts \/ exists (i : nat) (p : prog A), ts !! i = Some p /\ ~ finished p.
Proof.
  induction ts as [|p ts [IH|(i & q & Hi & Hq)]].
  - by left.
  - destruct p as [a| |X e k].
    + left. by constructor.
    + left. by constructor.
    + right. exists 0, (Vis e k). by split; [|intros []].
  - right. by exists (S i), q.
Qed.

Lemma ready_progress (holder : option nat) (c : state W * list (prog A)) :
  pool_inv n t holder c ->
  pool_ready n t holder c ->
  Forall finished c.2
  \/ exists (i : nat) (l : nat * call_record) (c' : state W * list (prog A)),
       step i c = Some (l, c').
Proof.
  destruct c as [s ts]. intros [Hph Hheld] [Hfree Hin]. simpl in *.
  destruct holder as [h|].
  - right. destruct (Hin h eq_refl) as [p Hp]. specialize (Hph h p Hp).
    unfold phase in Hph. rewrite decide_True in Hph by done.
    destruct p as [a| |X e k]; simpl in Hph; try done.
    assert (Hperf : exists (x : X) (s' : state W), perform e s = Some (x, s')).
    { destruct e as [rg nm pr|rg nm|rg nm|n' t'|n' t']; simpl in Hph; try done.
      - destruct (perform_remote (EvCreateOrUpdate rg nm pr) s eq_refl) as (x & s' & Hx & _).
        eauto.
      - destruct (perform_remote (EvGet rg nm) s eq_refl) as (x & s' & Hx & _). eauto.
      - destruct (perform_remote (EvDelete rg nm) s eq_refl) as (x & s' & Hx & _). eauto.
      - simpl. eauto. }
    destruct Hperf as (x & s' & Hperf). exists h. unfold step. simpl.
    rewrite Hp, Hperf. eauto.
  - destruct (unfinished_or_done ts) as [Hall|(i & p & Hi & Hp)]; [by left|right].
    specialize (Hph i p Hi). unfold phase in Hph. rewrite decide_False in Hph by done.
    destruct p as [a| |X e k]; simpl in *; try (by destruct Hp).
    destruct e as [rg nm pr|rg nm|rg nm|n' t'|n' t']; simpl in Hph; try done.
    destruct Hph as (-> & -> & _). exists i. unfold step. simpl. rewrite Hi. simpl.
    unfold azureRMLockByName. rewrite decide_False by (by apply Hfree). eauto.
Qed.

End Progress.

(** A pool whose handlers are Updates and Deletes of workflows named [n]. *)
Lemma handlers_guarded (n : string) (ts : list (prog (ResourceData * option error))) :
  Forall (fun p => exists (d : ResourceData) (id : ResourceID),
                     parseAzureResourceID (Id d) = Ok id
                     /\ index_string (Path id) "workflows" = n
                     /\ (p = Update d \/ p = Delete d)) ts ->
  forall (s : state W), pool_inv n logicAppResourceName None (s, ts).
Proof.
  intros Hts s. split; [|done]. intros i p Hi. unfold phase.
  rewrite decide_False by done. simpl in Hi.
  rewrite Forall_forall in Hts.
  destruct (Hts p) as (d & id & Hid & <- & [-> | ->]).
  { apply list_elem_of_lookup. eauto. }
  - by apply guarded_Update.
  - by apply guarded_Delete.
Qed.

(** X15: any number of Updates and Deletes of workflows of one name, run
    side by side under any schedule, never interleave: the trace of their
    calls is critical for the lock of that name, and a handler that has
    ended does not hold the lock. *)
Theorem pool_never_interleaves (n : string)
    (ts ts' : list (prog (ResourceData * option error)))
    (s s' : state W) (sched : list nat) (tr : list (nat * call_record)) :
  Forall (fun p => exists (d : ResourceData) (id : ResourceID),
                     parseAzureResourceID (Id d) = Ok id
                     /\ index_string (Path id) "workflows" = n
                     /\ (p = Update d \/ p = Delete d)) ts ->
  schedule sched (s, ts) = Some (tr, (s', ts')) ->
  exists holder : option nat,
    critical (n, logicAppResourceName) None tr = Some holder
    /\ forall (i : nat) (p : prog (ResourceData * option error)),
         ts' !! i = Some p -> finished p -> holder <> Some i.
Proof.
  intros Hts Hrun.
  destruct (schedule_inv n logicAppResourceName sched None _ _ tr
              (handlers_guarded n ts Hts s) Hrun) as (holder & Htr & Hinv).
  exists holder. split; [done|]. intros i p Hi Hfin.
  by apply (pool_inv_finished n logicAppResourceName holder (s', ts') i p).
Qed.

(** X16: Updates and Deletes of workflows of one name, started with the
    lock free, never get stuck: after any schedule either every handler
    has ended or some handler can make its next call. *)
Theorem pool_never_stuck (n : string)
    (ts ts' : list (prog (ResourceData * option error)))
    (s s' : state W) (sched : list nat) (tr : list (nat * call_record)) :
  Forall (fun p => exists (d : ResourceData) (id : ResourceID),
                     parseAzureResourceID (Id d) = Ok id
                     /\ index_string (Path id) "workflows" = n
                     /\ (p = Update d \/ p = Delete d)) ts ->
  (n, logicAppResourceName) ∉ held s ->
  schedule sched (s, ts) = Some (tr, (s', ts')) ->
  Forall finished ts'
  \/ exists (i : nat) (l : nat * call_record)
            (c : state W * list (prog (ResourceData * option error))),
       step i (s', ts') = Some (l, c).
Proof.
  intros Hts Hfree Hrun.
  destruct (schedule_ready n logicAppResourceName sched None (s, ts) (s', ts') tr)
    as (holder & Hinv & Hready); [by apply handlers_guarded | by split | done |].
  apply (ready_progress n logicAppResourceName holder (s', ts') Hinv Hready).
Qed.
End Further.

(** ** The further properties against the scripted client *)

Lemma flatten_keeps_non_nil_witness :
  ({["b" := IString "x"]} : gmap string iface) !! "a"
  = ({["a" := None; "b" := stringParameter "x"]}
       : gmap string (option logic.WorkflowParameter)) !! "a"
      ≫= fun p => logic.Value <$> p.
Proof.
  apply (flatten_keeps_non_nil {["a" := None; "b" := stringParameter "x"]}
           {["b" := IString "x"]}).
  reflexivity.
Defined.

Lemma expand_result_witness :
  ({["p1" := stringParameter "v1"]} : gmap string (option logic.WorkflowParameter)) !! "p1"
  = parameters testData !! "p1" ≫= fun v => stringParameter <$> assert_string v.
Proof.
  apply (expand_result testData {["p1" := stringParameter "v1"]}).
  reflexivity.
Defined.

Lemma Read_populates_witness :
  exists d' : ResourceData,
    run (testRead testData)
        (start [ReplyWorkflow
                  (remoteWorkflow
                     (IMap (newDefinition default_workflow_schema default_workflow_version)))
                  None])
    = (Returned (d', None),
       {| remote := []; held := ∅; calls := [CallGet "rg1" "wf1"] |})
    /\ parameters d' = {["p1" := IString "v1"]}
    /\ workflow_schema d' = default_workflow_schema
    /\ workflow_version d' = default_workflow_version.
Proof.
  destruct (Read_populates (client := scripted) testParse testNormalize testFlattenTags
              testNotFound testData testResourceID
              (start [ReplyWorkflow
                        (remoteWorkflow
                           (IMap (newDefinition default_workflow_schema
                                    default_workflow_version)))
                        None])
              (remoteWorkflow
                 (IMap (newDefinition default_workflow_schema default_workflow_version)))
              []
              (remoteProperties
                 (IMap (newDefinition default_workflow_schema default_workflow_version)))
              {["p1" := IString "v1"]}
              (newDefinition default_workflow_schema default_workflow_version)
              default_workflow_schema default_workflow_version
              eq_refl eq_refl eq_refl eq_refl eq_refl eq_refl eq_refl)
    as (d' & Hrun & _ & _ & _ & _ & Hps & _ & Hs & Hv & _).
  exists d'. split; [exact Hrun|]. split; [exact Hps|]. split; [exact Hs | exact Hv].
Defined.

Lemma Read_keeps_schema_witness :
  exists d' : ResourceData,
    run (testRead testData)
        (start [ReplyWorkflow
                  (remoteWorkflow (IMapPtr (newDefinition "other-schema" "2.0.0.0")))
                  None])
    = (Returned (d', None),
       {| remote := []; held := ∅; calls := [CallGet "rg1" "wf1"] |})
    /\ workflow_schema d' = default_workflow_schema
    /\ workflow_version d' = default_workflow_version.
Proof.
  destruct (Read_keeps_schema (client := scripted) testParse testNormalize testFlattenTags
              testNotFound testData testResourceID
              (start [ReplyWorkflow
                        (remoteWorkflow (IMapPtr (newDefinition "other-schema" "2.0.0.0")))
                        None])
              (remoteWorkflow (IMapPtr (newDefinition "other-schema" "2.0.0.0")))
              [] eq_refl eq_refl)
    as (d' & Hrun & Hs & Hv & _).
  - simpl. split; [discriminate | intros v; discriminate].
  - exists d'. split; [exact Hrun|]. split; [exact Hs | exact Hv].
Defined.

Lemma Read_panics_on_parameter_witness :
  run (testRead testData) (start [ReplyWorkflow countedWorkflow None])
  = (Panicked, {| remote := []; held := ∅; calls := [CallGet "rg1" "wf1"] |}).
Proof.
  apply (Read_panics_on_parameter (client := scripted) testParse testNormalize
           testFlattenTags testNotFound testData testResourceID
           (start [ReplyWorkflow countedWorkflow None]) countedWorkflow []
           countedProperties "count" countParameter
           eq_refl eq_refl eq_refl eq_refl eq_refl).
Defined.

Lemma invalid_id_no_call_witness :
  run (testUpdate strayData) (start [notFound])
  = (Returned (strayData, Some (External "Cannot parse Azure Id")), start [notFound]).
Proof.
  apply (invalid_id_no_call (client := scripted) testParse testNormalize testExpandTags
           testFlattenTags testNotFound strayData (External "Cannot parse Azure Id")
           (start [notFound]) eq_refl).
Defined.

Lemma Update_Delete_bracket_witness :
  (run (testUpdate testData)
       (start [ReplyWorkflow (remoteWorkflow (IMap editedDefinition)) None;
               ReplyWorkflow zeroWorkflow None;
               ReplyWorkflow countedWorkflow None])).1 = Panicked
  /\ exists l : list call_record,
       calls (run (testUpdate testData)
                  (start [ReplyWorkflow (remoteWorkflow (IMap editedDefinition)) None;
                          ReplyWorkflow zeroWorkflow None;
                          ReplyWorkflow countedWorkflow None])).2
       = CallLock "wf1" logicAppResourceName :: l
           ++ [CallUnlock "wf1" logicAppResourceName]
       /\ Forall (fun c => is_remote c = true) l
       /\ held (run (testUpdate testData)
                    (start [ReplyWorkflow (remoteWorkflow (IMap editedDefinition)) None;
                            ReplyWorkflow zeroWorkflow None;
                            ReplyWorkflow countedWorkflow None])).2 = ∅.
Proof.
  split; [vm_compute; reflexivity|].
  destruct (proj1 (Update_Delete_bracket (client := scripted) testParse testNormalize
                     testExpandTags testFlattenTags testNotFound testData testResourceID
                     (start [ReplyWorkflow (remoteWorkflow (IMap editedDefinition)) None;
                             ReplyWorkflow zeroWorkflow None;
                             ReplyWorkflow countedWorkflow None])
                     eq_refl (start_free _ _)))
    as (l & Hcalls & Hremote & Hheld & _).
  exists l. split; [exact Hcalls|]. split; [exact Hremote | exact Hheld].
Defined.

Lemma Update_outcome_witness :
  exists s' : state (list reply),
    run (testUpdate testData)
        (start [ReplyWorkflow (remoteWorkflow (IMap editedDefinition)) None;
                ReplyWorkflow zeroWorkflow (Some internalError)])
    = (Returned (testData,
                 Some (Errorf "Error updating Logic App Workspace %q (Resource Group %q): %+v"
                              [ArgQ "wf1"; ArgQ "rg1"; ArgV internalError])), s').
Proof.
  eexists.
  apply (proj1 (Update_outcome (client := scripted) testParse testNormalize testExpandTags
                  testFlattenTags testNotFound testData testResourceID
                  (start [ReplyWorkflow (remoteWorkflow (IMap editedDefinition)) None;
                          ReplyWorkflow zeroWorkflow (Some internalError)])
                  (remoteWorkflow (IMap editedDefinition)) zeroWorkflow
                  [ReplyWorkflow zeroWorkflow (Some internalError)] []
                  (remoteProperties (IMap editedDefinition)) {["p1" := "v1"]}
                  (Some internalError)
                  eq_refl (start_free _ _) eq_refl eq_refl testData_parameters eq_refl)
               internalError eq_refl).
Defined.

Lemma Create_round_trip_witness :
  exists d' : ResourceData,
    (run (testCreate (configured testConfig))
         (start [ReplyWorkflow zeroWorkflow None;
                 ReplyWorkflow (remoteWorkflow INil) None;
                 ReplyWorkflow
                   (remoteWorkflow
                      (IMap (newDefinition default_workflow_schema default_workflow_version)))
                   None])).1
    = Returned (d', None)
    /\ Id d' = testID
    /\ parameters d' = parameters (configured testConfig).
Proof.
  destruct (Create_round_trip (client := scripted) testParse testNormalize testExpandTags
              testFlattenTags testNotFound (configured testConfig) {["p1" := "v1"]}
              (start [ReplyWorkflow zeroWorkflow None;
                      ReplyWorkflow (remoteWorkflow INil) None;
                      ReplyWorkflow
                        (remoteWorkflow
                           (IMap (newDefinition default_workflow_schema
                                    default_workflow_version)))
                        None])
              zeroWorkflow (remoteWorkflow INil)
              (remoteWorkflow
                 (IMap (newDefinition default_workflow_schema default_workflow_version)))
              [ReplyWorkflow (remoteWorkflow INil) None;
               ReplyWorkflow
                 (remoteWorkflow
                    (IMap (newDefinition default_workflow_schema default_workflow_version)))
                 None]
              [ReplyWorkflow
                 (remoteWorkflow
                    (IMap (newDefinition default_workflow_schema default_workflow_version)))
                 None]
              [] testID testResourceID
              (remoteProperties
                 (IMap (newDefinition default_workflow_schema default_workflow_version)))
              eq_refl eq_refl eq_refl eq_refl eq_refl eq_refl eq_refl eq_refl eq_refl)
    as (d' & Hrun & Hid & Hps & _).
  exists d'. split; [exact Hrun|]. split; [exact Hid | exact Hps].
Defined.

Lemma testPool_handlers :
  Forall (fun p => exists (d : ResourceData) (id : ResourceID),
                     testParse (Id d) = Ok id
                     /\ index_string (Path id) "workflows" = "wf1"
                     /\ (p = testUpdate d \/ p = testDelete d))
         [testUpdate testData; testUpdate testData; testDelete testData].
Proof.
  repeat constructor; exists testData, testResourceID;
    (split; [reflexivity | split; [reflexivity|]]); [left | left | right]; reflexivity.
Qed.

Lemma pool_never_interleaves_witness :
  exists holder : option nat,
    critical ("wf1", logicAppResourceName) None
      [(0, CallLock "wf1" logicAppResourceName); (0, CallGet "rg1" "wf1");
       (0, CallUnlock "wf1" logicAppResourceName);
       (1, CallLock "wf1" logicAppResourceName); (1, CallGet "rg1" "wf1");
       (1, CallUnlock "wf1" logicAppResourceName);
       (2, CallLock "wf1" logicAppResourceName); (2, CallDelete "rg1" "wf1");
       (2, CallUnlock "wf1" logicAppResourceName)]
    = Some holder
    /\ holder <> Some 2.
Proof.
  destruct (pool_never_interleaves (client := scripted) testParse testNormalize
              testExpandTags testFlattenTags testNotFound "wf1"
              [testUpdate testData; testUpdate testData; testDelete testData]
              [Ret (SetId empty testData, None); Ret (SetId empty testData, None);
               Ret (testData, None)]
              (start [notFound; notFound; ReplyResponse (status 200) None])
              {| remote := []; held := ∅;
                 calls := [CallLock "wf1" logicAppResourceName; CallGet "rg1" "wf1";
                           CallUnlock "wf1" logicAppResourceName;
                           CallLock "wf1" logicAppResourceName; CallGet "rg1" "wf1";
                           CallUnlock "wf1" logicAppResourceName;
                           CallLock "wf1" logicAppResourceName; CallDelete "rg1" "wf1";
                           CallUnlock "wf1" logicAppResourceName] |}
              [0; 0; 0; 1; 1; 1; 2; 2; 2]
              [(0, CallLock "wf1" logicAppResourceName); (0, CallGet "rg1" "wf1");
               (0, CallUnlock "wf1" logicAppResourceName);
               (1, CallLock "wf1" logicAppResourceName); (1, CallGet "rg1" "wf1");
               (1, CallUnlock "wf1" logicAppResourceName);
               (2, CallLock "wf1" logicAppResourceName); (2, CallDelete "rg1" "wf1");
               (2, CallUnlock "wf1" logicAppResourceName)]
              testPool_handlers eq_refl)
    as (holder & Hcritical & Hended).
  exists holder. split; [exact Hcritical|].
  apply (Hended 2 (Ret (testData, None))); [reflexivity | exact I].
Defined.

Lemma pool_never_stuck_witness :
  Forall finished
    [Ret (SetId empty testData, None); testUpdate testData; testDelete testData]
  \/ exists (i : nat) (l : nat * call_record)
            (c : state (list reply) * list (prog (ResourceData * option error))),
       step i ({| remote := [notFound; ReplyResponse (status 200) None]; held := ∅;
                  calls := [CallLock "wf1" logicAppResourceName; CallGet "rg1" "wf1";
                            CallUnlock "wf1" logicAppResourceName] |},
               [Ret (SetId empty testData, None); testUpdate testData; testDelete testData])
       = Some (l, c).
Proof.
  apply (pool_never_stuck (client := scripted) testParse testNormalize
           testExpandTags testFlattenTags testNotFound "wf1"
           [testUpdate testData; testUpdate testData; testDelete testData]
           [Ret (SetId empty testData, None); testUpdate testData; testDelete testData]
           (start [notFound; notFound; ReplyResponse (status 200) None])
           {| remote := [notFound; ReplyResponse (status 200) None]; held := ∅;
              calls := [CallLock "wf1" logicAppResourceName; CallGet "rg1" "wf1";
                        CallUnlock "wf1" logicAppResourceName] |}
           [0; 0; 0]
           [(0, CallLock "wf1" logicAppResourceName); (0, CallGet "rg1" "wf1");
            (0, CallUnlock "wf1" logicAppResourceName)]
           testPool_handlers (start_free _ _) eq_refl).
Defined.
